(** * bosh-blobs-upgrader: the upgrade loop of [main.go], embedded in Rocq

    The program is one Go file whose [main] walks over the resources of a
    BOSH release: it asks a script for the upstream versions, keeps the
    latest one, asks a second script for a metalink describing the download,
    fetches the file, compares digests with the blobs of [config/blobs.yml]
    and replaces the blobs whose digest changed.

    The embedding follows the source statement by statement.  Go values
    that may be [nil] are options, run-time panics and [os.Exit] are
    explicit results, the file system is a finite map, and everything the
    program reaches outside of itself (scripts, HTTP, the bosh command
    line, git) is a field of an environment record and leaves an event in
    a trace. *)

From Stdlib Require Import String Ascii List ZArith NArith Bool Lia Permutation.
From Stdlib Require Strings.Byte.
From stdpp Require Import gmap strings list fin_maps.
Import ListNotations.

Local Open Scope string_scope.
Local Open Scope list_scope.

(** ** Go strings

    A Go string is a sequence of bytes, as is a Rocq [string]. *)

Module GoStrings.

Definition bytes_str (l : list nat) : string :=
  string_of_list_ascii (List.map ascii_of_nat l).

Definition nl : string := bytes_str [10].

(** [strings.Split(s, sep)] for a separator of one byte: always at least
    one field, [n+1] fields for [n] separators. *)
Fixpoint Split (s : string) (sep : ascii) : list string :=
  match s with
  | EmptyString => [EmptyString]
  | String c s' =>
      if Ascii.eqb c sep then EmptyString :: Split s' sep
      else match Split s' sep with
           | [] => [String c EmptyString]
           | f :: fs => String c f :: fs
           end
  end.

Definition unlines (l : list string) : string := String.concat nl l.

(** The UTF-8 encodings of the runes for which [unicode.IsSpace] holds:
    the six ASCII ones, U+0085, U+00A0 and the White_Space runes above
    Latin-1. *)
Definition space_runes : list string :=
  List.map bytes_str
    [ [9]; [10]; [11]; [12]; [13]; [32];
      [194; 133]; [194; 160]; [225; 154; 128];
      [226; 128; 128]; [226; 128; 129]; [226; 128; 130]; [226; 128; 131];
      [226; 128; 132]; [226; 128; 133]; [226; 128; 134]; [226; 128; 135];
      [226; 128; 136]; [226; 128; 137]; [226; 128; 138];
      [226; 128; 168]; [226; 128; 169]; [226; 128; 175];
      [226; 129; 159]; [227; 128; 128] ].

Fixpoint strip_prefix (p s : string) : option string :=
  match p, s with
  | EmptyString, _ => Some s
  | String a p', String b s' => if Ascii.eqb a b then strip_prefix p' s' else None
  | String _ _, EmptyString => None
  end.

Fixpoint strip_any (ps : list string) (s : string) : option string :=
  match ps with
  | [] => None
  | p :: ps' => match strip_prefix p s with
                | Some s' => Some s'
                | None => strip_any ps' s
                end
  end.

Fixpoint trim_left (ps : list string) (fuel : nat) (s : string) : string :=
  match fuel with
  | O => s
  | S fuel' => match strip_any ps s with
               | Some s' => trim_left ps fuel' s'
               | None => s
               end
  end.

Definition rev_string (s : string) : string :=
  string_of_list_ascii (List.rev (list_ascii_of_string s)).

(** [strings.TrimSpace]: leading, then trailing white space is cut. *)
Definition TrimSpace (s : string) : string :=
  let l := trim_left space_runes (String.length s) s in
  rev_string (trim_left (List.map rev_string space_runes) (String.length l) (rev_string l)).

End GoStrings.
Import GoStrings.

(** ** Results of running Go code *)

Inductive error : Type :=
| ErrNotExist (op path : string)
| ErrOther (msg : string).

Definition IsNotExist (e : error) : bool :=
  match e with ErrNotExist _ _ => true | ErrOther _ => false end.

Definition Error (e : error) : string :=
  match e with
  | ErrNotExist op p => op +:+ " " +:+ p +:+ ": no such file or directory"
  | ErrOther m => m
  end.

(** [fmt.Errorf(prefix + ": %v", err)] and [errors.Wrap(err, prefix)]. *)
Definition Errorf (prefix : string) (e : error) : error :=
  ErrOther (prefix +:+ ": " +:+ Error e).

Inductive PanicValue : Type :=
| NilDereference
| IndexOutOfRange (index len : nat)
| PanicString (s : string)
| PanicError (e : error).

(** A process ends early by a panic (exit status 2 of the Go run time) or
    by [os.Exit] / [log.Fatal]. *)
Inductive Halt : Type :=
| Panicked (p : PanicValue)
| Exited (code : Z).

Definition exit_status (h : Halt) : Z :=
  match h with Panicked _ => 2%Z | Exited c => c end.

Inductive Res (A : Type) : Type :=
| Ret (a : A)
| Stop (h : Halt).
Arguments Ret {A} a.
Arguments Stop {A} h.

Definition res_bind {A B} (r : Res A) (k : A -> Res B) : Res B :=
  match r with Ret a => k a | Stop h => Stop h end.

(** ** The version library

    [github.com/hashicorp/go-version] is used through [NewVersion],
    [LessThan] and [Original].  [NewVersion] returns a nil pointer next to
    its error; [Original] returns the string the version was parsed from. *)

Class VersionLib : Type := {
  Ver : Type;
  NewVersion : string -> option Ver;
  LessThan : Ver -> Ver -> bool;
  Original : Ver -> string;
  NewVersion_Original : forall s v, NewVersion s = Some v -> Original v = s;
  NewVersion_empty : NewVersion "" = None
}.

Section Resolver.
Context {L : VersionLib}.

(** A method of [*Version] called on, or with, a nil pointer reads a field
    of it and panics. *)
Definition LessThan_ptr (v o : option Ver) : Res bool :=
  match v, o with
  | Some a, Some b => Ret (LessThan a b)
  | _, _ => Stop (Panicked NilDereference)
  end.

Definition Original_ptr (v : option Ver) : Res string :=
  match v with
  | Some a => Ret (Original a)
  | None => Stop (Panicked NilDereference)
  end.

(** The [for i, rawVersion := range versionsList] loop; [i] is the index
    of the head of [rest]. *)
Fixpoint versionsLoop (latestVersion : option Ver) (i : nat) (rest : list string)
  : Res (option Ver) :=
  match rest with
  | [] => Ret latestVersion
  | rawVersion :: rest' =>
      if (rawVersion =? "")%string || (i =? 0)%nat
      then versionsLoop latestVersion (S i) rest'
      else
        let v := NewVersion rawVersion in
        match LessThan_ptr latestVersion v with
        | Ret true => versionsLoop v (S i) rest'
        | Ret false => versionsLoop latestVersion (S i) rest'
        | Stop h => Stop h
        end
  end.

(** [latestVersion, err := version.NewVersion(versionsList[0])] and the
    loop; the error is never looked at. *)
Definition latestVersionOf (versionsList : list string) : Res (option Ver) :=
  match versionsList with
  | [] => Stop (Panicked (IndexOutOfRange 0 0))
  | first :: _ => versionsLoop (NewVersion first) 0 versionsList
  end.

Definition versionsListOf (stdout : string) : list string :=
  Split (TrimSpace stdout) "010"%char.

(** The resolver as the rest of [main] sees it: the pointer, and the
    string [latestVersion.Original()] handed to the metalink script. *)
Definition resolveLatest (stdout : string) : Res (option Ver * string) :=
  res_bind (latestVersionOf (versionsListOf stdout)) (fun v =>
  res_bind (Original_ptr v) (fun o => Ret (v, o))).

Definition resolveOriginal (versionsList : list string) : Res string :=
  res_bind (latestVersionOf versionsList) Original_ptr.

End Resolver.

(** ** Purely numeric versions

    An instance of the library for the versions [v?N(.N)*]: dot-separated
    decimal numbers with an optional leading [v].  The Go library accepts,
    besides these, a prerelease and a build-metadata suffix; the concrete
    runs below do not use them.  On the numeric versions [NewVersion] and
    [Compare] are those of go-version 1.2.0: segments are parsed with
    [strconv.ParseInt(_, 10, 64)], padded with zeros up to three, and
    compared pairwise, a shorter list standing for one padded with zeros. *)

Module NumericVersions.

Record Version : Type := {
  segments : list N;
  original : string
}.

Definition is_digit (c : ascii) : bool :=
  (48 <=? nat_of_ascii c)%nat && (nat_of_ascii c <=? 57)%nat.

Definition digit_value (c : ascii) : N := N.of_nat (nat_of_ascii c - 48).

Fixpoint parseDigits (acc : N) (s : string) : option N :=
  match s with
  | EmptyString => Some acc
  | String c s' =>
      if is_digit c then parseDigits (acc * 10 + digit_value c) s' else None
  end.

Definition maxInt64 : N := 9223372036854775807.

(** [strconv.ParseInt(str, 10, 64)] on a segment. *)
Definition ParseInt (str : string) : option N :=
  match str with
  | EmptyString => None
  | _ => match parseDigits 0 str with
         | Some n => if (n <=? maxInt64)%N then Some n else None
         | None => None
         end
  end.

Fixpoint parseSegments (strs : list string) : option (list N) :=
  match strs with
  | [] => Some []
  | str :: strs' =>
      match ParseInt str, parseSegments strs' with
      | Some n, Some ns => Some (n :: ns)
      | _, _ => None
      end
  end.

Definition pad3 (l : list N) : list N :=
  l ++ List.repeat 0%N (3 - List.length l).

Definition newVersion (v : string) : option Version :=
  let body := match v with
              | String "v"%char rest => rest
              | _ => v
              end in
  match parseSegments (Split body "."%char) with
  | Some segs => Some {| segments := pad3 segs; original := v |}
  | None => None
  end.

Definition allZero (l : list N) : bool := forallb (N.eqb 0) l.

Fixpoint compareSegments (self other : list N) : comparison :=
  match self, other with
  | [], [] => Eq
  | [], _ :: _ => if allZero other then Eq else Lt
  | _ :: _, [] => if allZero self then Eq else Gt
  | lhs :: self', rhs :: other' =>
      if (lhs =? rhs)%N then compareSegments self' other'
      else if (lhs <? rhs)%N then Lt else Gt
  end.

Definition Compare (v other : Version) : comparison :=
  compareSegments (segments v) (segments other).

Definition lessThan (v other : Version) : bool :=
  match Compare v other with Lt => true | _ => false end.

#[export] Instance lib : VersionLib.
Proof.
  refine {| Ver := Version;
            NewVersion := newVersion;
            LessThan := lessThan;
            Original := original;
            NewVersion_Original := _;
            NewVersion_empty := eq_refl |}.
  intros s v. unfold newVersion. destruct (parseSegments _); [|discriminate].
  intros [= <-]. reflexivity.
Defined.

End NumericVersions.

(** ** SHA-256 ([crypto/sha256]) and the [%x] verb

    Words are numbers below [2^32]; the digest is printed in lower-case
    hexadecimal, as [fmt.Sprintf("%x", h.Sum(nil))] does. *)

Module SHA256.
Local Open Scope N_scope.

Definition w32 (x : N) : N := x mod 4294967296.
Definition add32 (a b : N) : N := w32 (a + b).
Definition rotr (n x : N) : N := N.lor (N.shiftr x n) (w32 (N.shiftl x (32 - n))).
Definition not32 (x : N) : N := 4294967295 - x.

Definition Ch (x y z : N) : N := N.lxor (N.land x y) (N.land (not32 x) z).
Definition Maj (x y z : N) : N :=
  N.lxor (N.lxor (N.land x y) (N.land x z)) (N.land y z).
Definition bsig0 (x : N) : N := N.lxor (N.lxor (rotr 2 x) (rotr 13 x)) (rotr 22 x).
Definition bsig1 (x : N) : N := N.lxor (N.lxor (rotr 6 x) (rotr 11 x)) (rotr 25 x).
Definition ssig0 (x : N) : N := N.lxor (N.lxor (rotr 7 x) (rotr 18 x)) (N.shiftr x 3).
Definition ssig1 (x : N) : N := N.lxor (N.lxor (rotr 17 x) (rotr 19 x)) (N.shiftr x 10).

Definition K : list N :=
  [ 1116352408; 1899447441; 3049323471; 3921009573; 961987163; 1508970993;
    2453635748; 2870763221; 3624381080; 310598401; 607225278; 1426881987;
    1925078388; 2162078206; 2614888103; 3248222580; 3835390401; 4022224774;
    264347078; 604807628; 770255983; 1249150122; 1555081692; 1996064986;
    2554220882; 2821834349; 2952996808; 3210313671; 3336571891; 3584528711;
    113926993; 338241895; 666307205; 773529912; 1294757372; 1396182291;
    1695183700; 1986661051; 2177026350; 2456956037; 2730485921; 2820302411;
    3259730800; 3345764771; 3516065817; 3600352804; 4094571909; 275423344;
    430227734; 506948616; 659060556; 883997877; 958139571; 1322822218;
    1537002063; 1747873779; 1955562222; 2024104815; 2227730452; 2361852424;
    2428436474; 2756734187; 3204031479; 3329325298 ].

Definition H0 : list N :=
  [ 1779033703; 3144134277; 1013904242; 2773480762;
    1359893119; 2600822924; 528734635; 1541459225 ].

(** The message schedule, most recent word first. *)
Fixpoint schedule (n : nat) (rev_w : list N) : list N :=
  match n with
  | O => rev_w
  | S n' =>
      let w := add32 (add32 (ssig1 (List.nth 1 rev_w 0)) (List.nth 6 rev_w 0))
                     (add32 (ssig0 (List.nth 14 rev_w 0)) (List.nth 15 rev_w 0)) in
      schedule n' (w :: rev_w)
  end.

Definition round (s : list N) (kw : N * N) : list N :=
  match s with
  | [a; b; c; d; e; f; g; h] =>
      let t1 := add32 (add32 (add32 h (bsig1 e)) (add32 (Ch e f g) (fst kw))) (snd kw) in
      let t2 := add32 (bsig0 a) (Maj a b c) in
      [add32 t1 t2; a; b; c; add32 d t1; e; f; g]
  | _ => s
  end.

Fixpoint zip_add (a b : list N) : list N :=
  match a, b with
  | x :: a', y :: b' => add32 x y :: zip_add a' b'
  | _, _ => []
  end.

Definition compress (h : list N) (block : list N) : list N :=
  let w := List.rev (schedule 48 (List.rev block)) in
  zip_add h (List.fold_left round (List.combine K w) h).

Fixpoint be_word (bs : list N) (acc : N) : N :=
  match bs with
  | [] => acc
  | b :: bs' => be_word bs' (acc * 256 + b)
  end.

Fixpoint words (fuel : nat) (bs : list N) : list N :=
  match fuel, bs with
  | S fuel', b0 :: b1 :: b2 :: b3 :: bs' => be_word [b0; b1; b2; b3] 0 :: words fuel' bs'
  | _, _ => []
  end.

Fixpoint blocks (fuel : nat) (ws : list N) (h : list N) : list N :=
  match fuel with
  | O => h
  | S fuel' =>
      match ws with
      | [] => h
      | _ => blocks fuel' (List.skipn 16 ws) (compress h (List.firstn 16 ws))
      end
  end.

Definition be_bytes8 (n : N) : list N :=
  List.map (fun i => (N.shiftr n (8 * i)) mod 256) [7; 6; 5; 4; 3; 2; 1; 0].

Definition pad (msg : list N) : list N :=
  let len := List.length msg in
  let zeros := ((64 - (len + 9) mod 64) mod 64)%nat in
  msg ++ [128] ++ List.repeat 0 zeros ++ be_bytes8 (8 * N.of_nat len).

Definition Sum256 (data : list Byte.byte) : list N :=
  let bs := pad (List.map Byte.to_N data) in
  let ws := words (List.length bs) bs in
  blocks (List.length ws) ws H0.

Definition hex_digit (n : N) : ascii :=
  ascii_of_N (if n <? 10 then 48 + n else 87 + n).

Definition hex_word (w : N) : string :=
  string_of_list_ascii
    (List.map (fun i => hex_digit ((N.shiftr w (4 * i)) mod 16)) [7; 6; 5; 4; 3; 2; 1; 0]).

Definition hex (data : list Byte.byte) : string :=
  String.concat "" (List.map hex_word (Sum256 data)).

End SHA256.

(** ** Data of [main.go] *)

Record Blob : Type := {
  Path : string;
  PackageName : string;
  ID : string;
  Size : string;
  Sha : string
}.

(** [var blob Blob]: the zero value. *)
Definition zeroBlob : Blob :=
  {| Path := ""; PackageName := ""; ID := ""; Size := ""; Sha := "" |}.

Definition with_Sha (b : Blob) (sha : string) : Blob :=
  {| Path := Path b; PackageName := PackageName b; ID := ID b; Size := Size b; Sha := sha |}.

Definition with_Path (b : Blob) (path : string) : Blob :=
  {| Path := path; PackageName := PackageName b; ID := ID b; Size := Size b; Sha := Sha b |}.

(** The parts of [metalink.Metalink] that [main] reads. *)
Module metalink.
Record URL : Type := { URL_ : string }.
Record File : Type := { Name : string; URLs : list URL }.
Record Metalink : Type := { Files : list File }.
Definition zero : Metalink := {| Files := [] |}.
End metalink.

Record Source : Type := {
  VersionCheck : string;
  MetalinkGet : string;
  Version : string
}.

Record ResourceConfig : Type := { source : Source }.

(** One entry of [resourcePaths] after its [resource.yml] has been read:
    [localBlobDir], [packageName] and [resourceConfig]. *)
Record Resource : Type := {
  localBlobDir : string;
  packageName : string;
  resourceConfig : ResourceConfig
}.

(** go-git's [StatusCode]. *)
Inductive StatusCode : Type :=
| Unmodified | Untracked | Modified | Added | Deleted | Renamed | Copied
| UpdatedButUnmerged.

Definition StatusCode_eqb (a b : StatusCode) : bool :=
  match a, b with
  | Unmodified, Unmodified | Untracked, Untracked | Modified, Modified
  | Added, Added | Deleted, Deleted | Renamed, Renamed | Copied, Copied
  | UpdatedButUnmerged, UpdatedButUnmerged => true
  | _, _ => false
  end.

Record FileStatus : Type := { Staging : StatusCode; Worktree : StatusCode }.

(** [Status.File(path)]: a path the status does not list is untracked. *)
Definition Status_File (s : gmap string FileStatus) (path : string) : FileStatus :=
  match s !! path with
  | Some f => f
  | None => {| Staging := Untracked; Worktree := Untracked |}
  end.

(** ** The outside world *)

(** What an HTTP response body delivers: [Body] and then end of file, or
    [Body] and then the error [BodyErr]. *)
Record Response : Type := {
  Body : list Byte.byte;
  BodyErr : option error
}.

Record Env : Type := {
  (** [api.ExecuteScript(script, params)] *)
  ExecuteScript : string -> list (string * string) -> list Byte.byte * option error;
  (** [metalink.Unmarshal]: the value decoded so far, and the error *)
  Unmarshal : list Byte.byte -> metalink.Metalink * option error;
  http_Get : string -> error + Response;
  os_Create : string -> option error;
  (** when writes to a path fail: after how many bytes, and the error *)
  disk_room : string -> option (nat * error);
  os_Chmod : string -> option error;
  (** a failure to open or read other than the file not existing *)
  read_fault : string -> option error;
  write_fault : string -> option error;
  os_Stat : string -> option error;
  (** [cmdFactory.New(args)] and [cmd.Execute()] of the bosh CLI *)
  bosh_New : list string -> option error;
  bosh_Execute : list string -> option error;
  git_Add : string -> option error;
  git_Status : error + gmap string FileStatus;
  filepath_Join : string -> string -> string
}.

Inductive Event : Type :=
| EvExecuteScript (script : string) (params : list (string * string))
| EvHttpGet (url : string)
| EvBosh (args : list string).

Record World : Type := {
  fs : gmap string (list Byte.byte);
  trace : list Event
}.

(** ** Sequencing: state, trace, and early end *)

Definition M (A : Type) : Type := World -> Res A * World.

Definition ret {A} (a : A) : M A := fun w => (Ret a, w).

Definition bind {A B} (m : M A) (k : A -> M B) : M B :=
  fun w => match m w with
           | (Ret a, w') => k a w'
           | (Stop h, w') => (Stop h, w')
           end.

Notation "x <- c1 ;; c2" := (bind c1 (fun x => c2))
  (at level 100, c1 at next level, right associativity).
Notation "c1 ;; c2" := (bind c1 (fun _ => c2))
  (at level 100, right associativity).

Definition halt {A} (h : Halt) : M A := fun w => (Stop h, w).
Definition panic {A} (p : PanicValue) : M A := halt (Panicked p).
Definition lift {A} (r : Res A) : M A := fun w => (r, w).

Definition emit (e : Event) : M unit :=
  fun w => (Ret tt, {| fs := fs w; trace := trace w ++ [e] |}).

Definition store (path : string) (data : list Byte.byte) : M unit :=
  fun w => (Ret tt, {| fs := <[path := data]> (fs w); trace := trace w |}).

Definition load (path : string) : M (option (list Byte.byte)) :=
  fun w => (Ret (fs w !! path), w).

Fixpoint forM {A} (l : list A) (body : A -> M unit) : M unit :=
  match l with
  | [] => ret tt
  | a :: l' => body a ;; forM l' body
  end.

(** The events a computation adds to the trace of [w]. *)
Definition events_of {A} (m : M A) (w : World) : list Event :=
  List.skipn (List.length (trace w)) (trace (snd (m w))).

(** Unfolds the sequencing operators and projections of the world. *)
Ltac run_M :=
  cbv beta iota delta [bind ret halt panic lift emit store load];
  cbn [fst snd fs trace].

Section Program.
Variable env : Env.

(** *** [sha256sum] and [DownloadFile] *)

Definition sha256sum (filepath : string) : M (string * option error) :=
  match read_fault env filepath with
  | Some _ => halt (Exited 1)
  | None =>
      f <- load filepath ;;
      match f with
      | None => halt (Exited 1)
      | Some data => ret (SHA256.hex data, None)
      end
  end.

(** [io.Copy(out, resp.Body)]: the bytes that reach the file, the count and
    the error. *)
Definition io_Copy (filepath : string) (resp : Response) : M (nat * option error) :=
  let body := Body resp in
  match disk_room env filepath with
  | Some (room, err) =>
      if (room <? List.length body)%nat
      then store filepath (List.firstn room body) ;; ret (room, Some err)
      else store filepath body ;; ret (List.length body, BodyErr resp)
  | None => store filepath body ;; ret (List.length body, BodyErr resp)
  end.

Definition DownloadFile (filepath url : string) : M (Blob * option error) :=
  let blob := zeroBlob in
  emit (EvHttpGet url) ;;
  match http_Get env url with
  | inl err => ret (blob, Some err)
  | inr resp =>
      match os_Create env filepath with
      | Some err => ret (blob, Some err)
      | None =>
          store filepath [] ;;
          (* _, err = io.Copy(out, resp.Body) *)
          _ <- io_Copy filepath resp ;;
          (* err = os.Chmod(filepath, 0777) *)
          match os_Chmod env filepath with
          | Some err => ret (blob, Some (Errorf "changing permissions" err))
          | None =>
              r <- sha256sum filepath ;;
              match snd r with
              | Some err => ret (blob, Some (Errorf "calculating shasum" err))
              | None => ret (with_Sha blob ("sha256:" +:+ fst r), snd r)
              end
          end
      end
  end.

(** *** The bosh command line *)

Definition bosh (args : list string) : M (option error) :=
  emit (EvBosh args) ;;
  match bosh_New env args with
  | Some err => panic (PanicError err)
  | None => ret (bosh_Execute env args)
  end.

Definition addBlobArgs (filePath blobPath releaseDir : string) : list string :=
  ["add-blob"; "--dir=" +:+ releaseDir; filePath; blobPath].
Definition removeBlobArgs (blobPath releaseDir : string) : list string :=
  ["remove-blob"; "--dir=" +:+ releaseDir; blobPath].
Definition uploadBlobsArgs (releaseDir : string) : list string :=
  ["upload-blobs"; "--dir=" +:+ releaseDir].

Definition boshAddBlob (filePath blobPath releaseDir : string) : M (option error) :=
  bosh (addBlobArgs filePath blobPath releaseDir).
Definition boshRemoveBlob (blobPath releaseDir : string) : M (option error) :=
  bosh (removeBlobArgs blobPath releaseDir).
Definition boshUploadBlobs (releaseDir : string) : M (option error) :=
  bosh (uploadBlobsArgs releaseDir).

(** [if err != nil { panic(f(err)) }] *)
Definition panicOn (f : error -> error) (err : option error) : M unit :=
  match err with
  | Some e => panic (PanicError (f e))
  | None => ret tt
  end.

End Program.

(** ** The body of [main] *)

Section Main.
Context {L : VersionLib}.
Variable env : Env.
Variable releaseDir : string.

Definition tooManyFiles : string :=
  "more than one metalink file is currently not supported.".
Definition tooManyURLs : string :=
  "more than one metalink URL per file is currently not supported.".

(** The two [len(...) > 1] guards around [file := meta4.Files[0]]. *)
Definition checkShape (meta4 : metalink.Metalink) : Res metalink.File :=
  if (1 <? List.length (metalink.Files meta4))%nat
  then Stop (Panicked (PanicString tooManyFiles))
  else
    match metalink.Files meta4 with
    | [] => Stop (Panicked (IndexOutOfRange 0 0))
    | file :: _ =>
        if (1 <? List.length (metalink.URLs file))%nat
        then Stop (Panicked (PanicString tooManyURLs))
        else Ret file
    end.

(** The metalink script is run and its output decoded.  Both errors are
    passed to [errors.Wrap], whose result is dropped. *)
Definition locate (script version : string) : M metalink.File :=
  let params := [("version", version)] in
  emit (EvExecuteScript script params) ;;
  let '(meta4Bytes, err) := ExecuteScript env script params in
  let _ := option_map (Errorf "executing metalink_get script") err in
  let '(meta4, err) := Unmarshal env meta4Bytes in
  let _ := option_map (Errorf "unmarshaling metalinks") err in
  lift (checkShape meta4).

Definition versionCheck (script : string) : M string :=
  emit (EvExecuteScript script []) ;;
  let '(stdout, err) := ExecuteScript env script [] in
  panicOn id err ;;
  ret (string_of_list_byte stdout).

(** One round of [for _, b := range blobs].  [onRemove] and [onAdd] are
    what the error is wrapped in before the panic: nothing in [main.go],
    [errors.Wrap] in the variant that keeps version files. *)
Definition blobStep (onRemove onAdd : error -> error)
    (packageName blobFilePath : string) (file : metalink.File) (b : Blob) : M unit :=
  if negb (PackageName b =? packageName)%string then ret tt
  else
    match metalink.URLs file with
    | [] => panic (IndexOutOfRange 0 0)
    | u :: _ =>
        r <- DownloadFile env blobFilePath (metalink.URL_ u) ;;
        panicOn id (snd r) ;;
        let newBlob := fst r in
        if (Sha b =? Sha newBlob)%string then ret tt
        else
          let newBlob := with_Path newBlob (packageName +:+ "/" +:+ metalink.Name file) in
          err <- boshRemoveBlob env (Path b) releaseDir ;;
          panicOn onRemove err ;;
          err <- boshAddBlob env blobFilePath (Path newBlob) releaseDir ;;
          panicOn onAdd err
    end.

(** [main.go]: one resource; [blobs] lists the manifest in the order in
    which [range] visits the map. *)
Definition updateResource (r : Resource) (blobs : list Blob) : M unit :=
  stdout <- versionCheck (VersionCheck (source (resourceConfig r))) ;;
  latest <- lift (resolveLatest stdout) ;;
  file <- locate (MetalinkGet (source (resourceConfig r))) (snd latest) ;;
  let blobFilePath := filepath_Join env (localBlobDir r) (metalink.Name file) in
  forM blobs (blobStep id id (packageName r) blobFilePath file).

(** [ioutil.ReadFile] and [ioutil.WriteFile]. *)
Definition ReadFile (path : string) : M (list Byte.byte * option error) :=
  match read_fault env path with
  | Some err => ret ([], Some err)
  | None =>
      f <- load path ;;
      match f with
      | Some data => ret (data, None)
      | None => ret ([], Some (ErrNotExist "open" path))
      end
  end.

Definition WriteFile (path : string) (data : list Byte.byte) : M (option error) :=
  match write_fault env path with
  | Some err => ret (Some err)
  | None => store path data ;; ret None
  end.

(** [if err != nil && !os.IsNotExist(err) { panic(f(err)) }] *)
Definition panicUnlessNotExist (f : error -> error) (err : option error) : M unit :=
  match err with
  | Some e => if IsNotExist e then ret tt else panic (PanicError (f e))
  | None => ret tt
  end.

Definition readVersion (versionPath : string) : M string :=
  cur <- ReadFile versionPath ;;
  panicUnlessNotExist id (snd cur) ;;
  ret (string_of_list_byte (fst cur)).

Definition writeVersion (versionPath original : string) : M unit :=
  err <- WriteFile versionPath (list_byte_of_string original) ;;
  panicUnlessNotExist (Errorf "writing version") err.

(** The variant of [main] that keeps a [version] file next to each
    [resource.yml]. *)
Definition updateResourceVersioned (r : Resource) (blobs : list Blob) : M unit :=
  stdout <- versionCheck (VersionCheck (source (resourceConfig r))) ;;
  latest <- lift (resolveLatest stdout) ;;
  file <- locate (MetalinkGet (source (resourceConfig r))) (snd latest) ;;
  let versionPath := filepath_Join env (localBlobDir r) "version" in
  currentVersion <- readVersion versionPath ;;
  if (currentVersion =? snd latest)%string then ret tt
  else
    let blobFilePath := filepath_Join env (localBlobDir r) (metalink.Name file) in
    forM blobs (blobStep (Errorf "removing old blobs") (Errorf "adding new blobs")
                  (packageName r) blobFilePath file) ;;
    writeVersion versionPath (snd latest).

(** After the loop, [main.go]: stage the manifest, look at its status,
    leave with status 1 when it is not modified, else upload.  (The git
    commit that follows the upload is not modelled.) *)
Definition finish : M unit :=
  let b := filepath_Join env "config" "blobs.yml" in
  panicOn id (git_Add env b) ;;
  match git_Status env with
  | inl err => panic (PanicError err)
  | inr status =>
      if negb (StatusCode_eqb (Staging (Status_File status b)) Modified)
      then halt (Exited 1)
      else
        err <- boshUploadBlobs env releaseDir ;;
        panicOn id err
  end.

(** After the loop, the variant with version files: the credentials file
    must exist, then upload. *)
Definition finishVersioned : M unit :=
  let private := filepath_Join env (filepath_Join env releaseDir "config") "private.yml" in
  match os_Stat env private with
  | Some err =>
      if IsNotExist err
      then panic (PanicError (Errorf "blobstore credentials not set" err))
      else ret tt
  | None => ret tt
  end ;;
  err <- boshUploadBlobs env releaseDir ;;
  panicOn (Errorf "uploading blobs") err.

(** [main] from the resource loop on.  Each resource comes with the order
    in which its [range blobs] visits the manifest. *)
Definition main (plan : list (Resource * list Blob)) : M unit :=
  forM plan (fun rb => updateResource (fst rb) (snd rb)) ;;
  finish.

Definition mainVersioned (plan : list (Resource * list Blob)) : M unit :=
  forM plan (fun rb => updateResourceVersioned (fst rb) (snd rb)) ;;
  finishVersioned.

End Main.

(** ** The manifest: [Blobs.Unmarshal]

    The YAML decoder fills the map [s]; a key whose value is null is held
    with a nil pointer.  When the decoder returns no error every entry gets
    its [Path], the key without surrounding white space, and its
    [PackageName], what precedes the first slash of the path; the
    assignment through a nil pointer panics. *)

Definition firstSegment (path : string) : string :=
  match Split path "/"%char with
  | [] => ""
  | first :: _ => first
  end.

Definition fillBlob (k : string) (v : Blob) : Blob :=
  let path := TrimSpace k in
  {| Path := path; PackageName := firstSegment path;
     ID := ID v; Size := Size v; Sha := Sha v |}.

Definition Blobs_Unmarshal
    (Decode : list Byte.byte -> gmap string (option Blob) * option error)
    (data : list Byte.byte) : Res (gmap string (option Blob) * option error) :=
  match Decode data with
  | (s, Some err) => Ret (s, Some err)
  | (s, None) =>
      if decide (map_Forall (fun _ v => is_Some v) s)
      then Ret (map_imap (fun k v => Some (option_map (fillBlob k) v)) s, None)
      else Stop (Panicked NilDereference)
  end.

(** Whether a byte occurs in a string. *)
Fixpoint has_byte (c : ascii) (s : string) : bool :=
  match s with
  | EmptyString => false
  | String a s' => Ascii.eqb a c || has_byte c s'
  end.

(** ** Vocabulary of the statements *)

Section ResolverTerms.
Context {L : VersionLib}.

Definition parsable (s : string) : Prop := exists v, NewVersion s = Some v.

(** Every line after the first is empty or parses. *)
Definition clean (rest : list string) : Prop :=
  Forall (fun s => s = "" \/ parsable s) rest.

(** No two entries of the list parse to versions that compare equal
    without being the same version. *)
Definition tie_free (l : list string) : Prop :=
  forall s t a b, In s l -> In t l ->
    NewVersion s = Some a -> NewVersion t = Some b ->
    LessThan a b = false -> LessThan b a = false -> a = b.

End ResolverTerms.

(** The bytes of the body that reach the file. *)
Definition delivered (env : Env) (filepath : string) (resp : Response) : list Byte.byte :=
  match disk_room env filepath with
  | Some (room, _) => List.firstn room (Body resp)
  | None => Body resp
  end.

(** How many downloads a trace holds. *)
Definition fetch_count (t : list Event) : nat :=
  List.length (List.filter (fun e => match e with EvHttpGet _ => true | _ => false end) t).

Section BlobsLoopTerms.
Variable env : Env.
Variable releaseDir : string.
Variables onRemove onAdd : error -> error.
Variables pkg blobFilePath : string.
Variable file : metalink.File.
Variable u : metalink.URL.
Variable resp : Response.

(** The digest string computed from the freshly fetched file. *)
Definition freshDigest : string :=
  "sha256:" +:+ SHA256.hex (delivered env blobFilePath resp).

Definition removeOld (b : Blob) : Event :=
  EvBosh (removeBlobArgs (Path b) releaseDir).

Definition addNew : Event :=
  EvBosh (addBlobArgs blobFilePath (pkg +:+ "/" +:+ metalink.Name file) releaseDir).

(** The calls one manifest record gives rise to when nothing fails. *)
Definition callsFor (b : Blob) : list Event :=
  if (PackageName b =? pkg)%string
  then EvHttpGet (metalink.URL_ u)
       :: (if (Sha b =? freshDigest)%string then [] else [removeOld b; addNew])
  else [].

(** The world right after a successful fetch. *)
Definition fetchedWorld (w : World) : World :=
  {| fs := <[blobFilePath := delivered env blobFilePath resp]> (fs w);
     trace := trace w ++ [EvHttpGet (metalink.URL_ u)] |}.

(** The two bosh calls that replace a record. *)
Definition replaceBlob (b : Blob) : M unit :=
  err <- boshRemoveBlob env (Path b) releaseDir ;;
  panicOn onRemove err ;;
  err <- boshAddBlob env blobFilePath (pkg +:+ "/" +:+ metalink.Name file) releaseDir ;;
  panicOn onAdd err.

End BlobsLoopTerms.

(** The world after the two scripts of the round of a resource. *)
Definition afterScripts (r : Resource) (original : string) (w : World) : World :=
  {| fs := fs w;
     trace := trace w
       ++ [ EvExecuteScript (VersionCheck (source (resourceConfig r))) [];
            EvExecuteScript (MetalinkGet (source (resourceConfig r)))
              [("version", original)] ] |}.

(** ** A release with one resource

    The release of the scenario has one package, [curl], whose version
    script prints [7.0] and [7.1] and whose metalink names one file with
    one URL.  [env] is built from the response the URL gives, the output
    of the metalink script and what the decoder makes of it, how much room
    the disk has and the status of the work tree. *)

Module Scenario.

Definition curl : Resource :=
  {| localBlobDir := "rel/config/blobs/curl";
     packageName := "curl";
     resourceConfig :=
       {| source := {| VersionCheck := "check"; MetalinkGet := "get"; Version := "" |} |} |}.

Definition url : string := "https://curl.example/curl-7.1.tar.gz".

Definition file : metalink.File :=
  {| metalink.Name := "curl-7.1.tar.gz";
     metalink.URLs := [ {| metalink.URL_ := url |} ] |}.

Definition descriptor : metalink.Metalink := {| metalink.Files := [file] |}.

Definition blobFilePath : string := "rel/config/blobs/curl/curl-7.1.tar.gz".

Definition env (resp : Response) (meta4 : string)
    (decoded : metalink.Metalink * option error)
    (room : option (nat * error)) (status : gmap string FileStatus) : Env :=
  {| ExecuteScript := fun script _ =>
       if (script =? "check")%string
       then (list_byte_of_string (unlines ["7.0"; "7.1"; ""]), None)
       else (list_byte_of_string meta4, None);
     Unmarshal := fun _ => decoded;
     http_Get := fun _ => inr resp;
     os_Create := fun _ => None;
     disk_room := fun _ => room;
     os_Chmod := fun _ => None;
     read_fault := fun _ => None;
     write_fault := fun _ => None;
     os_Stat := fun _ => None;
     bosh_New := fun _ => None;
     bosh_Execute := fun _ => None;
     git_Add := fun _ => None;
     git_Status := inr status;
     filepath_Join := fun a b => a +:+ "/" +:+ b |}.

Definition tarball : Response :=
  {| Body := list_byte_of_string "abcd"; BodyErr := None |}.

(** The transfer breaks after two of the four bytes. *)
Definition broken : Response :=
  {| Body := list_byte_of_string "ab"; BodyErr := Some (ErrOther "unexpected EOF") |}.

(** The metalink, cut off after the file element, and whole. *)
Definition cut : string :=
  "<metalink><file name=" +:+ bytes_str [34] +:+ "curl-7.1.tar.gz" +:+ bytes_str [34]
  +:+ "><url>" +:+ url +:+ "</url></file>".

Definition meta4 : string := cut +:+ "</metalink>".

Definition plain : Env := env tarball meta4 (descriptor, None) None ∅.

Definition old : Blob :=
  {| Path := "curl/curl-7.0.tar.gz"; PackageName := "curl"; ID := "1"; Size := "4";
     Sha := "sha256:" +:+ SHA256.hex (list_byte_of_string "old!") |}.

Definition same : Blob :=
  {| Path := "curl/curl-7.1.tar.gz"; PackageName := "curl"; ID := "2"; Size := "4";
     Sha := "sha256:" +:+ SHA256.hex (list_byte_of_string "abcd") |}.

Definition other : Blob :=
  {| Path := "jq/jq-1.6.tar.gz"; PackageName := "jq"; ID := "3"; Size := "4";
     Sha := "sha256:" +:+ SHA256.hex (list_byte_of_string "jq16") |}.

Definition start : World := {| fs := ∅; trace := [] |}.

Definition versionPath : string := "rel/config/blobs/curl/version".

End Scenario.

(** ** More situations of the same release *)

Module Situations.

(** A manifest with one key, written with a leading blank. *)
Definition Decode (_ : list Byte.byte) : gmap string (option Blob) * option error :=
  ({[ " curl/curl-7.0.tar.gz" := Some Scenario.old ]}, None).

(** A manifest one of whose keys has a null value. *)
Definition DecodeNull (_ : list Byte.byte) : gmap string (option Blob) * option error :=
  (<[ "jq/jq-1.6.tar.gz" := None ]> (fst (Decode [])), None).

Definition with_http_Get (e : Env) (get : string -> error + Response) : Env :=
  {| ExecuteScript := ExecuteScript e; Unmarshal := Unmarshal e; http_Get := get;
     os_Create := os_Create e; disk_room := disk_room e; os_Chmod := os_Chmod e;
     read_fault := read_fault e; write_fault := write_fault e; os_Stat := os_Stat e;
     bosh_New := bosh_New e; bosh_Execute := bosh_Execute e;
     git_Add := git_Add e; git_Status := git_Status e;
     filepath_Join := filepath_Join e |}.

Definition with_os_Chmod (e : Env) (chmod : string -> option error) : Env :=
  {| ExecuteScript := ExecuteScript e; Unmarshal := Unmarshal e; http_Get := http_Get e;
     os_Create := os_Create e; disk_room := disk_room e; os_Chmod := chmod;
     read_fault := read_fault e; write_fault := write_fault e; os_Stat := os_Stat e;
     bosh_New := bosh_New e; bosh_Execute := bosh_Execute e;
     git_Add := git_Add e; git_Status := git_Status e;
     filepath_Join := filepath_Join e |}.

Definition with_os_Stat (e : Env) (stat : string -> option error) : Env :=
  {| ExecuteScript := ExecuteScript e; Unmarshal := Unmarshal e; http_Get := http_Get e;
     os_Create := os_Create e; disk_room := disk_room e; os_Chmod := os_Chmod e;
     read_fault := read_fault e; write_fault := write_fault e; os_Stat := stat;
     bosh_New := bosh_New e; bosh_Execute := bosh_Execute e;
     git_Add := git_Add e; git_Status := git_Status e;
     filepath_Join := filepath_Join e |}.

(** No network. *)
Definition offline : Env :=
  with_http_Get Scenario.plain
    (fun url => inl (ErrOther ("Get " +:+ url +:+ ": dial tcp: no route to host"))).

(** Permissions cannot be changed. *)
Definition readonly : Env :=
  with_os_Chmod Scenario.plain
    (fun path => Some (ErrOther ("chmod " +:+ path +:+ ": operation not permitted"))).

(** The metalink script prints nothing and the decoder reports that. *)
Definition undecoded : Env :=
  Scenario.env Scenario.tarball "" (metalink.zero, Some (ErrOther "EOF")) None ∅.

(** The metalink script describes no file. *)
Definition no_file : Env :=
  Scenario.env Scenario.tarball "<metalink></metalink>" (metalink.zero, None) None ∅.

(** The manifest is staged as modified. *)
Definition staged : Env :=
  Scenario.env Scenario.tarball Scenario.meta4 (Scenario.descriptor, None) None
    {[ "config/blobs.yml" := {| Staging := Modified; Worktree := Unmodified |} ]}.

(** No credentials file, and one that cannot be looked at. *)
Definition no_credentials : Env :=
  with_os_Stat Scenario.plain (fun path => Some (ErrNotExist "stat" path)).

Definition unreadable_credentials : Env :=
  with_os_Stat Scenario.plain
    (fun path => Some (ErrOther ("stat " +:+ path +:+ ": permission denied"))).

End Situations.

(** * Properties *)

(** ** The models of the libraries, checked on known values *)

Example split_empty : versionsListOf "" = [""].
Proof. reflexivity. Qed.

Example split_three :
  versionsListOf (unlines ["7.0"; "7.1"; ""]) = ["7.0"; "7.1"].
Proof. reflexivity. Qed.

Example numeric_latest :
  resolveOriginal (L := NumericVersions.lib) ["7.0"; "7.10"; ""; "7.9"] = Ret "7.10".
Proof. reflexivity. Qed.

Example hex_empty :
  SHA256.hex [] = "e3b0c44298fc1c149afbf4c8996fb92427ae41e4649b934ca495991b7852b855".
Proof. vm_compute. reflexivity. Qed.

Example hex_abc :
  SHA256.hex (list_byte_of_string "abc")
  = "ba7816bf8f01cfea414140de5dae2223b00361a396177a9cb410ff61f20015ad".
Proof. vm_compute. reflexivity. Qed.

(** ** The order of the numeric versions *)

Module NumericOrder.
Import NumericVersions.

Lemma compareSegments_refl a : compareSegments a a = Eq.
Proof.
  induction a as [|x a IH]; simpl; [reflexivity|].
  rewrite N.eqb_refl. exact IH.
Qed.

Lemma compareSegments_allZero_r b c :
  allZero c = true -> compareSegments b c = Lt -> False.
Proof.
  revert c. induction b as [|y b IH]; intros [|z c] Hz; cbn [compareSegments].
  - discriminate.
  - rewrite Hz. discriminate.
  - destruct (allZero (y :: b)); discriminate.
  - unfold allZero in Hz. cbn [forallb] in Hz.
    apply andb_true_iff in Hz as [Hz0 Hzc].
    apply N.eqb_eq in Hz0. subst z.
    destruct (N.eqb_spec y 0) as [->|Hy]; [apply IH; exact Hzc|].
    destruct (N.ltb_spec y 0) as [Hlt|_]; [lia|discriminate].
Qed.

Lemma compareSegments_trans a b c :
  compareSegments a b = Lt -> compareSegments b c = Lt -> compareSegments a c = Lt.
Proof.
  revert b c. induction a as [|x a IH]; intros [|y b] [|z c];
    cbn [compareSegments]; intros H1 H2;
    try discriminate;
    try (destruct (allZero (y :: b)); discriminate);
    try (destruct (allZero (x :: a)); discriminate).
  - destruct (allZero (z :: c)) eqn:Hz; [|reflexivity].
    exfalso. exact (compareSegments_allZero_r (y :: b) (z :: c) Hz H2).
  - destruct (N.eqb_spec x y) as [->|Hxy]; destruct (N.eqb_spec y z) as [->|Hyz].
    + eapply IH; eassumption.
    + exact H2.
    + destruct (N.eqb_spec x z); [contradiction|exact H1].
    + destruct (N.ltb_spec x y); [|discriminate].
      destruct (N.ltb_spec y z); [|discriminate].
      destruct (N.eqb_spec x z); [lia|].
      destruct (N.ltb_spec x z); [reflexivity|lia].
Qed.

Lemma lessThan_irrefl v : lessThan v v = false.
Proof. unfold lessThan, Compare. rewrite compareSegments_refl. reflexivity. Qed.

Lemma lessThan_trans a b c :
  lessThan a b = true -> lessThan b c = true -> lessThan a c = true.
Proof.
  unfold lessThan, Compare. intros H1 H2.
  destruct (compareSegments (segments a) (segments b)) eqn:E1; try discriminate.
  destruct (compareSegments (segments b) (segments c)) eqn:E2; try discriminate.
  rewrite (compareSegments_trans _ _ _ E1 E2). reflexivity.
Qed.

End NumericOrder.

(** ** The version resolver *)

Section ResolverFacts.
Context {L : VersionLib}.

Lemma Split_nonempty s sep : Split s sep <> [].
Proof.
  destruct s as [|c s]; simpl; [discriminate|].
  destruct (Ascii.eqb c sep); [discriminate|].
  destruct (Split s sep); discriminate.
Qed.

Lemma versionsLoop_first latest x rest :
  versionsLoop latest 0 (x :: rest) = versionsLoop latest 1 rest.
Proof. simpl. rewrite orb_true_r. reflexivity. Qed.

Lemma versionsLoop_nil_latest rest i :
  Forall (fun s => NewVersion s = None) rest ->
  versionsLoop None i rest = Ret None
  \/ versionsLoop None i rest = Stop (Panicked NilDereference).
Proof.
  intros H. revert i. induction H as [|s rest Hs _ IH]; intros i; simpl.
  - left. reflexivity.
  - destruct ((s =? "")%string || (i =? 0)%nat); [apply IH|].
    right. reflexivity.
Qed.

Hypothesis LessThan_irrefl : forall a, LessThan a a = false.
Hypothesis LessThan_trans :
  forall a b c, LessThan a b = true -> LessThan b c = true -> LessThan a c = true.

Lemma LessThan_asym a b : LessThan a b = true -> LessThan b a = false.
Proof.
  intros H. destruct (LessThan b a) eqn:E; [|reflexivity].
  rewrite <- (LessThan_irrefl a). symmetry. eapply LessThan_trans; eassumption.
Qed.

Lemma versionsLoop_max rest : forall i cur,
  clean rest ->
  exists v,
    versionsLoop (Some cur) (S i) rest = Ret (Some v)
    /\ (v = cur \/ LessThan cur v = true)
    /\ (v = cur \/ exists s, In s rest /\ NewVersion s = Some v)
    /\ (forall s u, In s rest -> NewVersion s = Some u -> LessThan v u = false).
Proof.
  induction rest as [|s rest IH]; intros i cur Hc.
  - exists cur. simpl. repeat split; auto. intros s u [].
  - inversion Hc as [|? ? Hs Hrest]; subst. cbn [versionsLoop].
    replace (S i =? 0)%nat with false by reflexivity. rewrite orb_false_r.
    destruct (String.eqb_spec s "") as [->|Hne].
    + destruct (IH (S i) cur Hrest) as (v & Hv & Hge & Hin & Hmax).
      exists v. split; [exact Hv|]. split; [exact Hge|]. split.
      * destruct Hin as [->|(t & Ht & Hp)]; [left; reflexivity|].
        right. exists t. split; [right; exact Ht|exact Hp].
      * intros t u [<-|Ht] Hu; [rewrite NewVersion_empty in Hu; discriminate|].
        eapply Hmax; eassumption.
    + destruct Hs as [->|[x Hx]]; [contradiction|].
      rewrite Hx. cbn [LessThan_ptr].
      destruct (LessThan cur x) eqn:Hlt.
      * destruct (IH (S i) x Hrest) as (v & Hv & Hge & Hin & Hmax).
        exists v. split; [exact Hv|]. split; [|split].
        -- right. destruct Hge as [->|Hge]; [exact Hlt|].
           eapply LessThan_trans; eassumption.
        -- right. destruct Hin as [->|(t & Ht & Hp)].
           ++ exists s. split; [left; reflexivity|exact Hx].
           ++ exists t. split; [right; exact Ht|exact Hp].
        -- intros t u [<-|Ht] Hu; [|eapply Hmax; eassumption].
           rewrite Hx in Hu. injection Hu as <-.
           destruct Hge as [->|Hge]; [apply LessThan_irrefl|].
           apply LessThan_asym. exact Hge.
      * destruct (IH (S i) cur Hrest) as (v & Hv & Hge & Hin & Hmax).
        exists v. split; [exact Hv|]. split; [exact Hge|]. split.
        -- destruct Hin as [->|(t & Ht & Hp)]; [left; reflexivity|].
           right. exists t. split; [right; exact Ht|exact Hp].
        -- intros t u [<-|Ht] Hu; [|eapply Hmax; eassumption].
           rewrite Hx in Hu. injection Hu as <-.
           destruct Hge as [->|Hge]; [exact Hlt|].
           destruct (LessThan v x) eqn:E; [|reflexivity].
           rewrite <- Hlt. symmetry. eapply LessThan_trans; eassumption.
Qed.

(** The latest version of a list whose first line parses and whose other
    lines are empty or parse: it is one of the entries and none is above
    it. *)
Lemma latestVersionOf_max first rest v0 :
  NewVersion first = Some v0 -> clean rest ->
  exists v,
    latestVersionOf (first :: rest) = Ret (Some v)
    /\ (exists s, In s (first :: rest) /\ NewVersion s = Some v)
    /\ (forall s u, In s (first :: rest) -> NewVersion s = Some u ->
          LessThan v u = false).
Proof.
  intros H0 Hc. unfold latestVersionOf. rewrite versionsLoop_first, H0.
  destruct (versionsLoop_max rest 0 v0 Hc) as (v & Hv & Hge & Hin & Hmax).
  exists v. split; [exact Hv|]. split.
  - destruct Hin as [->|(t & Ht & Hp)].
    + exists first. split; [left; reflexivity|exact H0].
    + exists t. split; [right; exact Ht|exact Hp].
  - intros s u [<-|Hs] Hu; [|eapply Hmax; eassumption].
    rewrite H0 in Hu. injection Hu as <-.
    destruct Hge as [->|Hge]; [apply LessThan_irrefl|].
    apply LessThan_asym. exact Hge.
Qed.

End ResolverFacts.

(** C1 (as amended).  When the first line parses and every other line is
    empty or parses, and [LessThan] is a strict order, the resolver returns
    the original string of an entry of the list that no parsable entry is
    above; and any reordering of the lines whose first line parses gives
    the same result as long as no two entries tie. *)
Theorem resolver_returns_maximum {L : VersionLib}
    (LessThan_irrefl : forall a, LessThan a a = false)
    (LessThan_trans : forall a b c,
        LessThan a b = true -> LessThan b c = true -> LessThan a c = true)
    (first : string) (rest : list string) :
  parsable first -> clean rest ->
  exists latest v,
    resolveOriginal (first :: rest) = Ret latest
    /\ In latest (first :: rest) /\ NewVersion latest = Some v
    /\ (forall s u, In s (first :: rest) -> NewVersion s = Some u ->
          LessThan v u = false)
    /\ (forall first' rest',
          Permutation (first :: rest) (first' :: rest') ->
          parsable first' -> tie_free (first :: rest) ->
          resolveOriginal (first' :: rest') = Ret latest).
Proof.
  intros [v0 H0] Hc.
  destruct (latestVersionOf_max LessThan_irrefl LessThan_trans first rest v0 H0 Hc)
    as (v & Hv & (latest & Hlatest & Hparse) & Hmax).
  assert (Ho : Original v = latest) by (apply NewVersion_Original; exact Hparse).
  exists latest, v.
  split; [unfold resolveOriginal; rewrite Hv; cbn; rewrite Ho; reflexivity|].
  split; [exact Hlatest|]. split; [exact Hparse|]. split; [exact Hmax|].
  intros first' rest' Hperm [v0' H0'] Hties.
  assert (Hall : Forall (fun s => s = "" \/ parsable s) (first :: rest)).
  { constructor; [right; exists v0; exact H0|exact Hc]. }
  assert (Hc' : clean rest').
  { eapply Permutation_Forall in Hall; [|exact Hperm].
    inversion Hall; assumption. }
  destruct (latestVersionOf_max LessThan_irrefl LessThan_trans first' rest' v0' H0' Hc')
    as (v' & Hv' & (s' & Hs' & Hp') & Hmax').
  assert (v = v') as <-.
  { apply (Hties latest s'); auto.
    - eapply Permutation_in; [apply Permutation_sym; exact Hperm|exact Hs'].
    - eapply Hmax; [|exact Hp'].
      eapply Permutation_in; [apply Permutation_sym; exact Hperm|exact Hs'].
    - eapply Hmax'; [|exact Hparse].
      eapply Permutation_in; [exact Hperm|exact Hlatest]. }
  unfold resolveOriginal. rewrite Hv'. cbn. rewrite Ho. reflexivity.
Qed.

Lemma numeric_tie_free : tie_free (L := NumericVersions.lib) ["7.0"; "7.1"; ""; "6.9"].
Proof.
  intros s t a b Hs Ht Ha Hb Hab Hba. simpl in Hs, Ht.
  repeat match goal with H : _ \/ _ |- _ => destruct H | H : False |- _ => destruct H end;
    subst; vm_compute in Ha, Hb;
    try discriminate; injection Ha as <-; injection Hb as <-;
    first [reflexivity | vm_compute in Hab; vm_compute in Hba; discriminate].
Qed.

Lemma resolver_returns_maximum_witness :
  parsable (L := NumericVersions.lib) "7.0"
  /\ clean (L := NumericVersions.lib) ["7.1"; ""; "6.9"]
  /\ resolveOriginal (L := NumericVersions.lib) ["7.0"; "7.1"; ""; "6.9"] = Ret "7.1"
  /\ resolveOriginal (L := NumericVersions.lib) ["6.9"; ""; "7.1"; "7.0"] = Ret "7.1".
Proof.
  assert (Hp : parsable (L := NumericVersions.lib) "7.0") by (eexists; reflexivity).
  assert (Hc : clean (L := NumericVersions.lib) ["7.1"; ""; "6.9"]).
  { constructor; [right; eexists; reflexivity|].
    constructor; [left; reflexivity|].
    constructor; [right; eexists; reflexivity|]. constructor. }
  split; [exact Hp|]. split; [exact Hc|].
  destruct (resolver_returns_maximum (L := NumericVersions.lib)
              NumericOrder.lessThan_irrefl NumericOrder.lessThan_trans
              "7.0" ["7.1"; ""; "6.9"] Hp Hc) as (latest & v & Hv & _ & _ & _ & Hperm).
  assert (Hv' : Ret "7.1" = Ret latest) by exact Hv.
  split.
  - rewrite Hv. symmetry. exact Hv'.
  - rewrite (Hperm "6.9" [""; "7.1"; "7.0"]).
    + symmetry. exact Hv'.
    + apply (Permutation_rev ["7.0"; "7.1"; ""; "6.9"]).
    + eexists; reflexivity.
    + exact numeric_tie_free.
Defined.

(** C1, refuted as stated.  A line that does not parse between two that do
    ends the run with a nil dereference instead of being skipped, and two
    spellings of one version make the result depend on the order of the
    lines. *)
Lemma resolver_counterexample :
  resolveOriginal (L := NumericVersions.lib)
      (versionsListOf (unlines ["7.0"; "foo"; "7.1"]))
    = Stop (Panicked NilDereference)
  /\ resolveOriginal (L := NumericVersions.lib) ["1.0"; "1.0.0"] = Ret "1.0"
  /\ resolveOriginal (L := NumericVersions.lib) ["1.0.0"; "1.0"] = Ret "1.0.0".
Proof. repeat split; reflexivity. Qed.

(** C4.  When no line of the version script's output parses (an empty
    output has the single line [""]), [latestVersion] stays nil and the
    resolver ends in a nil dereference: in [LessThan] when a second
    non-empty line is met, else in [Original]. *)
Theorem resolver_unparsable_nil_dereference {L : VersionLib} (stdout : string) :
  Forall (fun s => NewVersion s = None) (versionsListOf stdout) ->
  resolveLatest stdout = Stop (Panicked NilDereference).
Proof.
  intros H. unfold resolveLatest, latestVersionOf.
  destruct (versionsListOf stdout) as [|first rest] eqn:E.
  - exfalso. exact (Split_nonempty _ _ E).
  - inversion H as [|? ? H0 Hrest]; subst. rewrite versionsLoop_first, H0.
    destruct (versionsLoop_nil_latest rest 1 Hrest) as [-> | ->]; reflexivity.
Qed.

Lemma resolver_unparsable_witness :
  versionsListOf "" = [""]
  /\ resolveLatest (L := NumericVersions.lib) "" = Stop (Panicked NilDereference)
  /\ resolveLatest (L := NumericVersions.lib) (unlines ["foo"; "bar"])
     = Stop (Panicked NilDereference).
Proof.
  split; [reflexivity|]. split.
  - apply (resolver_unparsable_nil_dereference (L := NumericVersions.lib) "").
    repeat constructor.
  - apply (resolver_unparsable_nil_dereference (L := NumericVersions.lib)
             (unlines ["foo"; "bar"])).
    repeat constructor.
Defined.

(** ** The content fetcher *)

Lemma firstn_ge_length {A} (n : nat) (l : list A) :
  (n <? List.length l)%nat = false -> List.firstn n l = l.
Proof. intros H. apply Nat.ltb_ge in H. apply List.firstn_all2. exact H. Qed.

(** What [DownloadFile] does once the request, [os.Create], [os.Chmod] and
    the re-opening of the file succeed: the file holds [delivered], and the
    result is the digest of the file next to a nil error. *)
Lemma DownloadFile_ok env filepath url resp w :
  http_Get env url = inr resp ->
  os_Create env filepath = None ->
  os_Chmod env filepath = None ->
  read_fault env filepath = None ->
  DownloadFile env filepath url w =
    (Ret (with_Sha zeroBlob ("sha256:" +:+ SHA256.hex (delivered env filepath resp)), None),
     {| fs := <[filepath := delivered env filepath resp]> (fs w);
        trace := trace w ++ [EvHttpGet url] |}).
Proof.
  intros Hget Hcreate Hchmod Hread.
  unfold DownloadFile, delivered, io_Copy, sha256sum, bind, emit, store, load, ret.
  rewrite Hget, Hcreate, Hchmod, Hread. cbn [fs trace].
  destruct (disk_room env filepath) as [[room werr]|].
  - destruct (room <? List.length (Body resp))%nat eqn:E; cbn [fs trace fst snd];
      rewrite lookup_insert_eq; cbn [fst snd]; rewrite insert_insert_eq;
      [reflexivity|]. rewrite (firstn_ge_length _ _ E). reflexivity.
  - cbn [fs trace fst snd]. rewrite lookup_insert_eq. cbn [fst snd].
    rewrite insert_insert_eq. reflexivity.
Qed.

(** C6.  [DownloadFile] reports success whatever [io.Copy] returned: when
    the copy ends in an error (the body breaks off, or the disk fills up)
    after [n] bytes have been written, the caller still gets a nil error
    and the digest of the truncated file. *)
Theorem DownloadFile_drops_copy_error env filepath url resp n err w0 w :
  http_Get env url = inr resp ->
  fst (io_Copy env filepath resp w0) = Ret (n, Some err) ->
  os_Create env filepath = None ->
  os_Chmod env filepath = None ->
  read_fault env filepath = None ->
  fst (DownloadFile env filepath url w)
  = Ret (with_Sha zeroBlob ("sha256:" +:+ SHA256.hex (delivered env filepath resp)), None).
Proof.
  intros Hget _ Hcreate Hchmod Hread.
  rewrite (DownloadFile_ok env filepath url resp w Hget Hcreate Hchmod Hread).
  reflexivity.
Qed.

Lemma DownloadFile_drops_copy_error_witness :
  fst (io_Copy (Scenario.env Scenario.broken Scenario.meta4 (Scenario.descriptor, None) None ∅)
         "curl-7.1.tar.gz" Scenario.broken Scenario.start)
    = Ret (2, Some (ErrOther "unexpected EOF"))
  /\ fst (DownloadFile (Scenario.env Scenario.broken Scenario.meta4 (Scenario.descriptor, None) None ∅)
            "curl-7.1.tar.gz" Scenario.url Scenario.start)
     = Ret (with_Sha zeroBlob
              "sha256:fb8e20fc2e4c3f248c60c39bd652f3c1347298bb977b8b4d5903b85055620603",
            None).
Proof.
  split; [reflexivity|].
  exact (DownloadFile_drops_copy_error
           (Scenario.env Scenario.broken Scenario.meta4 (Scenario.descriptor, None) None ∅)
           "curl-7.1.tar.gz" Scenario.url Scenario.broken 2 (ErrOther "unexpected EOF")
           Scenario.start Scenario.start eq_refl eq_refl eq_refl eq_refl eq_refl).
Defined.

(** ** The change detector: the loop over the manifest *)

Section BlobsLoop.
Variable env : Env.
Variable releaseDir : string.
Variables onRemove onAdd : error -> error.
Variables pkg blobFilePath : string.
Variable file : metalink.File.
Variable u : metalink.URL.
Variable us : list metalink.URL.
Variable resp : Response.

Local Abbreviation freshDigest := (freshDigest env blobFilePath resp).
Local Abbreviation removeOld := (removeOld releaseDir).
Local Abbreviation addNew := (addNew releaseDir pkg blobFilePath file).
Local Abbreviation callsFor := (callsFor env releaseDir pkg blobFilePath file u resp).
Local Abbreviation fetchedWorld := (fetchedWorld env blobFilePath u resp).
Local Abbreviation replaceBlob :=
  (replaceBlob env releaseDir onRemove onAdd pkg blobFilePath file).

Hypothesis file_URLs : metalink.URLs file = u :: us.
Hypothesis fetch_response : http_Get env (metalink.URL_ u) = inr resp.
Hypothesis fetch_create : os_Create env blobFilePath = None.
Hypothesis fetch_chmod : os_Chmod env blobFilePath = None.
Hypothesis fetch_read : read_fault env blobFilePath = None.

Let step := blobStep env releaseDir onRemove onAdd pkg blobFilePath file.

Lemma blobStep_other b w :
  PackageName b <> pkg -> step b w = (Ret tt, w).
Proof.
  intros H. unfold step, blobStep.
  destruct (String.eqb_spec (PackageName b) pkg); [contradiction|reflexivity].
Qed.

Lemma blobStep_fetched b w :
  PackageName b = pkg ->
  step b w = if (Sha b =? freshDigest)%string
             then (Ret tt, fetchedWorld w)
             else replaceBlob b (fetchedWorld w).
Proof.
  intros Hp. unfold step, blobStep.
  rewrite Hp, String.eqb_refl, file_URLs. cbn [negb]. unfold bind at 1.
  rewrite (DownloadFile_ok env blobFilePath _ resp w
             fetch_response fetch_create fetch_chmod fetch_read).
  cbn [fst snd panicOn]. unfold bind at 1, ret at 1. cbn [fst snd Sha with_Sha zeroBlob].
  fold freshDigest. destruct (Sha b =? freshDigest)%string; reflexivity.
Qed.

Lemma replaceBlob_trace b w :
  exists rest,
    trace (snd (replaceBlob b w)) = trace w ++ removeOld b :: rest
    /\ (rest = [] \/ rest = [addNew])
    /\ (fst (replaceBlob b w) = Ret tt -> rest = [addNew]).
Proof.
  unfold replaceBlob, boshRemoveBlob, boshAddBlob, bosh, panicOn, removeOld, addNew.
  run_M.
  destruct (bosh_New env (removeBlobArgs (Path b) releaseDir)); run_M.
  { exists []. split; [reflexivity|]. split; [left; reflexivity|discriminate]. }
  destruct (bosh_Execute env (removeBlobArgs (Path b) releaseDir)); run_M.
  { exists []. split; [reflexivity|]. split; [left; reflexivity|discriminate]. }
  eexists [_]. split.
  - destruct (bosh_New env (addBlobArgs _ _ _)); run_M;
      [|destruct (bosh_Execute env (addBlobArgs _ _ _)); run_M];
      rewrite <- !app_assoc; reflexivity.
  - split; [right; reflexivity|reflexivity].
Qed.

Lemma blobStep_unchanged b w :
  PackageName b = pkg -> Sha b = freshDigest ->
  step b w = (Ret tt, fetchedWorld w).
Proof.
  intros Hp Hs. rewrite (blobStep_fetched b w Hp), Hs, String.eqb_refl. reflexivity.
Qed.

Lemma blobStep_changed b w :
  PackageName b = pkg -> Sha b <> freshDigest ->
  exists rest,
    trace (snd (step b w))
    = trace w ++ EvHttpGet (metalink.URL_ u) :: removeOld b :: rest
    /\ (rest = [] \/ rest = [addNew])
    /\ (fst (step b w) = Ret tt -> rest = [addNew]).
Proof.
  intros Hp Hs. rewrite (blobStep_fetched b w Hp).
  destruct (String.eqb_spec (Sha b) freshDigest) as [E|_]; [contradiction|].
  destruct (replaceBlob_trace b (fetchedWorld w)) as (rest & Ht & Hr & Hok).
  exists rest. split; [|split; assumption].
  rewrite Ht. cbn [fetchedWorld trace]. rewrite <- app_assoc. reflexivity.
Qed.

Lemma blobStep_trace b w w' :
  step b w = (Ret tt, w') -> trace w' = trace w ++ callsFor b.
Proof.
  intros H. unfold callsFor.
  destruct (String.eqb_spec (PackageName b) pkg) as [Hp|Hp].
  - destruct (String.eqb_spec (Sha b) freshDigest) as [Hs|Hs].
    + rewrite (blobStep_unchanged b w Hp Hs) in H. injection H as <-. reflexivity.
    + destruct (blobStep_changed b w Hp Hs) as (rest & Ht & _ & Hr).
      rewrite H in Ht, Hr. cbn [fst snd] in Ht, Hr.
      rewrite (Hr eq_refl) in Ht. exact Ht.
  - rewrite (blobStep_other b w Hp) in H. injection H as <-.
    rewrite app_nil_r. reflexivity.
Qed.

Lemma blobsLoop_trace bs : forall w w',
  forM bs step w = (Ret tt, w') ->
  trace w' = trace w ++ List.flat_map callsFor bs.
Proof.
  induction bs as [|b bs IH]; intros w w' H.
  - injection H as <-. cbn. rewrite app_nil_r. reflexivity.
  - cbn [forM] in H. unfold bind in H.
    destruct (step b w) as [[[]|h] w1] eqn:E; [|discriminate].
    rewrite (IH w1 w' H), (blobStep_trace b w w1 E).
    cbn [List.flat_map]. rewrite <- app_assoc. reflexivity.
Qed.

End BlobsLoop.



(** ** The artifact locator *)

(** [locate] runs the script once and leaves with what the shape guards
    say about the decoded value; neither error takes part. *)
Lemma locate_result env script version w :
  locate env script version w
  = (checkShape
       (fst (Unmarshal env (fst (ExecuteScript env script [("version", version)])))),
     {| fs := fs w;
        trace := trace w ++ [EvExecuteScript script [("version", version)]] |}).
Proof.
  unfold locate. run_M.
  destruct (ExecuteScript env script [("version", version)]) as [meta4Bytes err].
  cbn [fst]. destruct (Unmarshal env meta4Bytes) as [meta4 err']. reflexivity.
Qed.

(** C5.  A description with two or more files is refused with the panic
    about files, one file with two or more URLs with the panic about URLs,
    and one file with one URL is accepted and returned; [locate] ends with
    exactly what these guards say. *)
Theorem locator_shape_guards (f1 f2 : metalink.File) (files : list metalink.File)
    (name : string) (u1 u2 : metalink.URL) (urls : list metalink.URL)
    (env : Env) (script version : string) (w : World) :
  checkShape {| metalink.Files := f1 :: f2 :: files |}
    = Stop (Panicked (PanicString tooManyFiles))
  /\ checkShape
       {| metalink.Files :=
            [ {| metalink.Name := name; metalink.URLs := u1 :: u2 :: urls |} ] |}
     = Stop (Panicked (PanicString tooManyURLs))
  /\ checkShape
       {| metalink.Files := [ {| metalink.Name := name; metalink.URLs := [u1] |} ] |}
     = Ret {| metalink.Name := name; metalink.URLs := [u1] |}
  /\ fst (locate env script version w)
     = checkShape
         (fst (Unmarshal env (fst (ExecuteScript env script [("version", version)])))).
Proof.
  repeat split; try reflexivity. rewrite locate_result. reflexivity.
Qed.

(** C10.  A description without any file passes the guard on the number of
    files and makes [meta4.Files[0]] panic with an index out of range. *)
Theorem locator_zero_files_out_of_range env script version w :
  metalink.Files
    (fst (Unmarshal env (fst (ExecuteScript env script [("version", version)])))) = [] ->
  fst (locate env script version w) = Stop (Panicked (IndexOutOfRange 0 0)).
Proof.
  intros H. rewrite locate_result. cbn [fst]. unfold checkShape. rewrite H.
  reflexivity.
Qed.

Lemma locator_zero_files_out_of_range_witness :
  fst (locate (Scenario.env Scenario.tarball "<metalink></metalink>" (metalink.zero, None) None ∅)
         "get" "7.1" Scenario.start)
  = Stop (Panicked (IndexOutOfRange 0 0)).
Proof.
  exact (locator_zero_files_out_of_range
           (Scenario.env Scenario.tarball "<metalink></metalink>" (metalink.zero, None) None ∅)
           "get" "7.1" Scenario.start eq_refl).
Defined.

(** C7.  When the output of the metalink script does not decode, the
    error is wrapped and dropped: [locate] goes on with whatever was
    decoded, and the error is not part of its result. *)
Theorem locator_drops_decode_error env script version w meta4Bytes err meta4 err' :
  ExecuteScript env script [("version", version)] = (meta4Bytes, err) ->
  Unmarshal env meta4Bytes = (meta4, Some err') ->
  locate env script version w
  = (checkShape meta4,
     {| fs := fs w;
        trace := trace w ++ [EvExecuteScript script [("version", version)]] |}).
Proof.
  intros H1 H2. rewrite locate_result, H1. cbn [fst]. rewrite H2. reflexivity.
Qed.

Lemma locator_drops_decode_error_witness :
  fst (locate (Scenario.env Scenario.tarball "" (metalink.zero, Some (ErrOther "EOF")) None ∅)
         "get" "7.1" Scenario.start)
    = Stop (Panicked (IndexOutOfRange 0 0))
  /\ fst (locate (Scenario.env Scenario.tarball Scenario.cut
                    (Scenario.descriptor, Some (ErrOther "XML syntax error")) None ∅)
            "get" "7.1" Scenario.start)
     = Ret Scenario.file.
Proof.
  split.
  - rewrite (locator_drops_decode_error
               (Scenario.env Scenario.tarball "" (metalink.zero, Some (ErrOther "EOF")) None ∅)
               "get" "7.1" Scenario.start [] None
               metalink.zero (ErrOther "EOF") eq_refl eq_refl).
    reflexivity.
  - rewrite (locator_drops_decode_error
               (Scenario.env Scenario.tarball Scenario.cut
                  (Scenario.descriptor, Some (ErrOther "XML syntax error")) None ∅)
               "get" "7.1" Scenario.start (list_byte_of_string Scenario.cut) None
               Scenario.descriptor (ErrOther "XML syntax error") eq_refl eq_refl).
    reflexivity.
Defined.

(** ** The version file *)

Lemma events_of_app {A} (m : M A) (w : World) (added : list Event) :
  trace (snd (m w)) = trace w ++ added -> events_of m w = added.
Proof.
  intros H. unfold events_of. rewrite H. apply drop_app_length.
Qed.

(** C3 (as amended).  When the [version] file of a resource holds the
    string of the newly resolved version, the metalink script is still run
    and its description still goes through the shape guards; the round
    ends right there: with the panic of the guards if the description does
    not pass them, else normally.  Either way nothing is downloaded, no
    bosh command is run and the files are left as they were. *)
Theorem version_file_short_circuits {L : VersionLib}
    env releaseDir r blobs w stdout latestVersion original current :
  ExecuteScript env (VersionCheck (source (resourceConfig r))) [] = (stdout, None) ->
  resolveLatest (string_of_list_byte stdout) = Ret (latestVersion, original) ->
  read_fault env (filepath_Join env (localBlobDir r) "version") = None ->
  fs w !! filepath_Join env (localBlobDir r) "version" = Some current ->
  string_of_list_byte current = original ->
  let script := MetalinkGet (source (resourceConfig r)) in
  let round := updateResourceVersioned env releaseDir r blobs in
  round w
  = (res_bind
       (checkShape
          (fst (Unmarshal env (fst (ExecuteScript env script [("version", original)])))))
       (fun _ => Ret tt),
     {| fs := fs w;
        trace := trace w
          ++ [ EvExecuteScript (VersionCheck (source (resourceConfig r))) [];
               EvExecuteScript script [("version", original)] ] |})
  /\ fetch_count (events_of round w) = 0.
Proof.
  intros Hcheck Hlatest Hfault Hfile Hcur script round.
  assert (E : round w
    = (res_bind
         (checkShape
            (fst (Unmarshal env (fst (ExecuteScript env script [("version", original)])))))
         (fun _ => Ret tt),
       {| fs := fs w;
          trace := trace w
            ++ [ EvExecuteScript (VersionCheck (source (resourceConfig r))) [];
                 EvExecuteScript script [("version", original)] ] |})).
  { unfold round, updateResourceVersioned, versionCheck. unfold bind at 1 2.
    unfold emit at 1. rewrite Hcheck. unfold panicOn. run_M. rewrite Hlatest.
    fold script. rewrite locate_result. cbn [fst snd fs trace].
    rewrite <- app_assoc. cbn [app].
    destruct (checkShape _) as [file|h]; cbn [res_bind]; [|reflexivity].
    unfold readVersion, ReadFile, panicUnlessNotExist. rewrite Hfault. run_M.
    rewrite Hfile. run_M. rewrite Hcur, String.eqb_refl. reflexivity. }
  split; [exact E|].
  rewrite (events_of_app round w _ (f_equal (fun p => trace (snd p)) E)).
  reflexivity.
Qed.

Lemma version_file_short_circuits_witness :
  updateResourceVersioned (L := NumericVersions.lib) Scenario.plain "rel" Scenario.curl
    [Scenario.old]
    {| fs := {[ Scenario.versionPath := list_byte_of_string "7.1" ]}; trace := [] |}
  = (Ret tt,
     {| fs := {[ Scenario.versionPath := list_byte_of_string "7.1" ]};
        trace := [ EvExecuteScript "check" []; EvExecuteScript "get" [("version", "7.1")] ] |}).
Proof.
  refine (proj1 (version_file_short_circuits (L := NumericVersions.lib)
              Scenario.plain "rel" Scenario.curl [Scenario.old]
              {| fs := {[ Scenario.versionPath := list_byte_of_string "7.1" ]}; trace := [] |}
              (list_byte_of_string (unlines ["7.0"; "7.1"; ""]))
              (NewVersion (VersionLib := NumericVersions.lib) "7.1") "7.1"
              (list_byte_of_string "7.1")
              eq_refl eq_refl eq_refl _ eq_refl)).
  apply lookup_singleton_eq.
Defined.

(** C3, refuted as stated.  The version file holds the resolved version
    [7.1], yet the rest of the round is not skipped: the metalink script is
    run, and when its description names no file the round ends in an index
    out of range instead of leaving the resource as unchanged. *)
Lemma version_file_counterexample :
  updateResourceVersioned (L := NumericVersions.lib) Situations.no_file "rel" Scenario.curl
    [Scenario.old]
    {| fs := {[ Scenario.versionPath := list_byte_of_string "7.1" ]}; trace := [] |}
  = (Stop (Panicked (IndexOutOfRange 0 0)),
     {| fs := {[ Scenario.versionPath := list_byte_of_string "7.1" ]};
        trace := [ EvExecuteScript "check" []; EvExecuteScript "get" [("version", "7.1")] ] |}).
Proof.
  unfold updateResourceVersioned, versionCheck. unfold bind at 1 2. unfold emit at 1.
  cbn [ExecuteScript Situations.no_file Scenario.env Scenario.curl VersionCheck
         MetalinkGet source resourceConfig String.eqb Ascii.eqb Bool.eqb fs trace].
  unfold panicOn. run_M.
  change (resolveLatest (L := NumericVersions.lib)
            (string_of_list_byte (list_byte_of_string (unlines ["7.0"; "7.1"; ""]))))
    with (Ret (NewVersion (VersionLib := NumericVersions.lib) "7.1", "7.1")).
  cbn [snd]. rewrite locate_result. reflexivity.
Qed.

(** C9.  What [ioutil.WriteFile] stores in the version file is the string
    of the version, and reading the file back gives that string, byte for
    byte. *)
Theorem version_file_round_trip env versionPath original w :
  write_fault env versionPath = None ->
  read_fault env versionPath = None ->
  fst (writeVersion env versionPath original w) = Ret tt
  /\ fs (snd (writeVersion env versionPath original w)) !! versionPath
     = Some (list_byte_of_string original)
  /\ fst (readVersion env versionPath (snd (writeVersion env versionPath original w)))
     = Ret original.
Proof.
  intros Hw Hr.
  unfold writeVersion, readVersion, WriteFile, ReadFile, panicUnlessNotExist.
  rewrite Hw, Hr. run_M. rewrite lookup_insert_eq. run_M.
  rewrite string_of_list_byte_of_string. repeat split; reflexivity.
Qed.

Lemma version_file_round_trip_witness :
  fst (readVersion Scenario.plain Scenario.versionPath
         (snd (writeVersion Scenario.plain Scenario.versionPath " 7.1 " Scenario.start)))
  = Ret " 7.1 ".
Proof.
  exact (proj2 (proj2 (version_file_round_trip Scenario.plain Scenario.versionPath
                         " 7.1 " Scenario.start eq_refl eq_refl))).
Defined.

(** ** After the loop *)

Lemma StatusCode_eqb_neq s : s <> Modified -> StatusCode_eqb s Modified = false.
Proof. destruct s; intros H; try reflexivity. contradiction. Qed.

(** C8 (as amended).  When the staged status of the manifest is not
    [Modified], [main] leaves through [os.Exit(1)]: no upload is run and
    the exit status is 1, not 0; a panic ends with status 2. *)
Theorem unmodified_manifest_exits_1 env releaseDir w status :
  git_Add env (filepath_Join env "config" "blobs.yml") = None ->
  git_Status env = inr status ->
  Staging (Status_File status (filepath_Join env "config" "blobs.yml")) <> Modified ->
  finish env releaseDir w = (Stop (Exited 1), w)
  /\ exit_status (Exited 1) = 1%Z
  /\ (forall p, exit_status (Panicked p) = 2%Z).
Proof.
  intros Hadd Hstatus Hmod. split; [|split; reflexivity].
  unfold finish, panicOn. rewrite Hadd, Hstatus. run_M.
  rewrite (StatusCode_eqb_neq _ Hmod). reflexivity.
Qed.

Lemma unmodified_manifest_exits_1_witness :
  finish Scenario.plain "rel" Scenario.start = (Stop (Exited 1), Scenario.start)
  /\ exit_status (Exited 1) = 1%Z
  /\ (forall p, exit_status (Panicked p) = 2%Z).
Proof.
  apply (unmodified_manifest_exits_1 Scenario.plain "rel" Scenario.start ∅ eq_refl eq_refl).
  discriminate.
Defined.

(** C8, refuted as stated.  A run in which the one record of the package
    already has the digest of the download changes nothing: it ends with
    exit status 1 and not 0, after the two scripts and the download and
    without any bosh command. *)
Lemma no_change_run_counterexample :
  fst (main (L := NumericVersions.lib) Scenario.plain "rel"
         [(Scenario.curl, [Scenario.same])] Scenario.start)
    = Stop (Exited 1)
  /\ trace (snd (main (L := NumericVersions.lib) Scenario.plain "rel"
                   [(Scenario.curl, [Scenario.same])] Scenario.start))
     = [ EvExecuteScript "check" []; EvExecuteScript "get" [("version", "7.1")];
         EvHttpGet Scenario.url ].
Proof. split; vm_compute; reflexivity. Qed.

(** ** The scenario, run *)

(** The record of [curl] has an old digest: the round fetches, replaces
    the blob and writes the version file; a second round from there stops
    at the version file. *)
Example scenario_upgrade :
  let round := updateResourceVersioned (L := NumericVersions.lib) Scenario.plain "rel"
                 Scenario.curl [Scenario.other; Scenario.old] in
  fst (round Scenario.start) = Ret tt
  /\ trace (snd (round Scenario.start))
     = [ EvExecuteScript "check" []; EvExecuteScript "get" [("version", "7.1")];
         EvHttpGet Scenario.url;
         EvBosh ["remove-blob"; "--dir=rel"; "curl/curl-7.0.tar.gz"];
         EvBosh ["add-blob"; "--dir=rel"; "rel/config/blobs/curl/curl-7.1.tar.gz";
                 "curl/curl-7.1.tar.gz"] ]
  /\ fs (snd (round Scenario.start)) !! Scenario.versionPath
     = Some (list_byte_of_string "7.1")
  /\ events_of round (snd (round Scenario.start))
     = [ EvExecuteScript "check" []; EvExecuteScript "get" [("version", "7.1")] ].
Proof. repeat split; vm_compute; reflexivity. Qed.

(** * Further properties of the code *)

(** ** The resolver: when it returns, and what *)

Section ResolverMore.
Context {L : VersionLib}.

Lemma versionsLoop_nil_never rest : forall i,
  versionsLoop None i rest = Ret None
  \/ versionsLoop None i rest = Stop (Panicked NilDereference).
Proof.
  induction rest as [|s rest IH]; intros i; cbn [versionsLoop].
  - left. reflexivity.
  - destruct ((s =? "")%string || (i =? 0)%nat); [apply IH|].
    right. reflexivity.
Qed.

Lemma versionsLoop_clean_ret rest : forall i cur,
  clean rest -> exists v, versionsLoop (Some cur) (S i) rest = Ret (Some v).
Proof.
  induction rest as [|s rest IH]; intros i cur Hc.
  - exists cur. reflexivity.
  - inversion Hc as [|? ? Hs Hrest]; subst. cbn [versionsLoop].
    replace (S i =? 0)%nat with false by reflexivity. rewrite orb_false_r.
    destruct (String.eqb_spec s "") as [->|Hne]; [apply IH; exact Hrest|].
    destruct Hs as [->|[x Hx]]; [contradiction|].
    rewrite Hx. cbn [LessThan_ptr].
    destruct (LessThan cur x); apply IH; exact Hrest.
Qed.

Lemma versionsLoop_ret_inv rest : forall i cur r,
  versionsLoop (Some cur) (S i) rest = Ret r ->
  clean rest
  /\ exists v, r = Some v
       /\ (v = cur \/ exists s, In s rest /\ NewVersion s = Some v).
Proof.
  induction rest as [|s rest IH]; intros i cur r H.
  - injection H as <-. split; [constructor|]. exists cur. split; auto.
  - cbn [versionsLoop] in H.
    replace (S i =? 0)%nat with false in H by reflexivity.
    rewrite orb_false_r in H.
    destruct (String.eqb_spec s "") as [->|Hne].
    + destruct (IH _ _ _ H) as (Hc & v & -> & Hv).
      split; [constructor; [left; reflexivity|exact Hc]|].
      exists v. split; [reflexivity|].
      destruct Hv as [->|(t & Ht & Hp)]; [left; reflexivity|].
      right. exists t. split; [right; exact Ht|exact Hp].
    + destruct (NewVersion s) as [x|] eqn:Hx; cbn [LessThan_ptr] in H;
        [|discriminate].
      assert (Hs : s = "" \/ parsable s) by (right; exists x; exact Hx).
      destruct (LessThan cur x).
      * destruct (IH _ _ _ H) as (Hc & v & -> & Hv).
        split; [constructor; assumption|]. exists v. split; [reflexivity|].
        right. destruct Hv as [->|(t & Ht & Hp)].
        -- exists s. split; [left; reflexivity|exact Hx].
        -- exists t. split; [right; exact Ht|exact Hp].
      * destruct (IH _ _ _ H) as (Hc & v & -> & Hv).
        split; [constructor; assumption|]. exists v. split; [reflexivity|].
        destruct Hv as [->|(t & Ht & Hp)]; [left; reflexivity|].
        right. exists t. split; [right; exact Ht|exact Hp].
Qed.

(** What [latestVersionOf] returns is the version of one of the lines. *)
Lemma latestVersionOf_ret_inv first rest r :
  latestVersionOf (first :: rest) = Ret r ->
  r = None
  \/ (parsable first /\ clean rest
      /\ exists v s, r = Some v /\ In s (first :: rest) /\ NewVersion s = Some v).
Proof.
  unfold latestVersionOf. rewrite versionsLoop_first.
  destruct (NewVersion first) as [v0|] eqn:H0; intros H.
  - right. destruct (versionsLoop_ret_inv _ _ _ _ H) as (Hc & v & -> & Hv).
    split; [exists v0; exact H0|]. split; [exact Hc|].
    exists v. destruct Hv as [->|(t & Ht & Hp)].
    + exists first. repeat split; [left; reflexivity|exact H0].
    + exists t. repeat split; [right; exact Ht|exact Hp].
  - left. destruct (versionsLoop_nil_never rest 1) as [E|E];
      rewrite E in H; [injection H as <-; reflexivity|discriminate].
Qed.

Lemma resolveOriginal_ret_inv first rest latest :
  resolveOriginal (first :: rest) = Ret latest ->
  parsable first /\ clean rest /\ In latest (first :: rest) /\ parsable latest.
Proof.
  unfold resolveOriginal. intros H.
  destruct (latestVersionOf (first :: rest)) as [r|h] eqn:E; [|discriminate].
  destruct (latestVersionOf_ret_inv _ _ _ E) as [->|(Hp & Hc & v & s & -> & Hs & Hv)];
    [discriminate|].
  cbn in H. injection H as <-.
  rewrite (NewVersion_Original s v Hv).
  repeat split; try assumption. exists v. exact Hv.
Qed.

Lemma versionsLoop_blank latest rest : forall i j,
  versionsLoop latest (S i) rest
  = versionsLoop latest (S j) (List.filter (fun s => negb (s =? "")%string) rest).
Proof.
  revert latest. induction rest as [|s rest IH]; intros latest i j; [reflexivity|].
  cbn [versionsLoop List.filter].
  replace (S i =? 0)%nat with false by reflexivity. rewrite orb_false_r.
  destruct (String.eqb_spec s "") as [->|Hne]; cbn [negb].
  - apply IH.
  - cbn [versionsLoop]. replace (S j =? 0)%nat with false by reflexivity.
    rewrite orb_false_r. destruct (String.eqb_spec s ""); [contradiction|].
    destruct (LessThan_ptr latest (NewVersion s)) as [[]|]; try reflexivity;
      apply IH.
Qed.

End ResolverMore.

(** X1.  The resolver returns a version exactly when the first line of
    the list parses and every later line is empty or parses; in every
    other case the run ends there. *)
Theorem resolver_returns_iff {L : VersionLib} (first : string) (rest : list string) :
  (exists latest, resolveOriginal (first :: rest) = Ret latest)
  <-> parsable first /\ clean rest.
Proof.
  split.
  - intros [latest H]. destruct (resolveOriginal_ret_inv _ _ _ H) as (Hp & Hc & _).
    split; assumption.
  - intros [[v0 H0] Hc]. unfold resolveOriginal, latestVersionOf.
    rewrite versionsLoop_first, H0.
    destruct (versionsLoop_clean_ret rest 0 v0 Hc) as [v ->].
    exists (Original v). reflexivity.
Qed.

(** X2.  A string the resolver returns is one of the lines it was given,
    and a line that parses: it never hands a made-up or normalised version
    to the metalink script. *)
Theorem resolver_returns_a_line {L : VersionLib} (versionsList : list string)
    (latest : string) :
  resolveOriginal versionsList = Ret latest ->
  In latest versionsList /\ parsable latest.
Proof.
  destruct versionsList as [|first rest]; [discriminate|].
  intros H. destruct (resolveOriginal_ret_inv _ _ _ H) as (_ & _ & Hin & Hp).
  split; assumption.
Qed.

Lemma resolver_returns_a_line_witness :
  resolveOriginal (L := NumericVersions.lib) ["v1.2"; "1.10.0"; "1.9"] = Ret "1.10.0"
  /\ In "1.10.0" ["v1.2"; "1.10.0"; "1.9"]
  /\ parsable (L := NumericVersions.lib) "1.10.0".
Proof.
  split; [reflexivity|].
  exact (resolver_returns_a_line (L := NumericVersions.lib)
           ["v1.2"; "1.10.0"; "1.9"] "1.10.0" eq_refl).
Defined.

(** X3.  Empty lines after the first never matter: the latest version of
    a list is that of the list with its later empty lines removed, also
    when the run ends in a panic. *)
Theorem resolver_skips_blank_lines {L : VersionLib} (first : string) (rest : list string) :
  latestVersionOf (first :: rest)
  = latestVersionOf (first :: List.filter (fun s => negb (s =? "")%string) rest).
Proof.
  unfold latestVersionOf. rewrite !versionsLoop_first. apply versionsLoop_blank.
Qed.

(** ** Lines and path segments *)

Lemma concat_Split (s : string) (sep : ascii) :
  String.concat (String sep "") (Split s sep) = s.
Proof.
  induction s as [|c s IH]; [reflexivity|].
  cbn [Split]. destruct (Ascii.eqb_spec c sep) as [->|Hne].
  - pose proof (Split_nonempty s sep) as Hnil.
    destruct (Split s sep) as [|f fs]; [contradiction|].
    change (String.concat (String sep "") ("" :: f :: fs))
      with (String sep (String.concat (String sep "") (f :: fs))).
    rewrite IH. reflexivity.
  - pose proof (Split_nonempty s sep) as Hnil.
    destruct (Split s sep) as [|f fs]; [contradiction|].
    destruct fs as [|g fs].
    + cbn in IH |- *. rewrite IH. reflexivity.
    + change (String.concat (String sep "") (String c f :: g :: fs))
        with (String c (String.concat (String sep "") (f :: g :: fs))).
      rewrite IH. reflexivity.
Qed.

Lemma Split_head_no_sep (s : string) (sep : ascii) (first : string) (rest : list string) :
  Split s sep = first :: rest -> has_byte sep first = false.
Proof.
  revert first rest. induction s as [|c s IH]; intros first rest H.
  - injection H as <- _. reflexivity.
  - cbn [Split] in H. destruct (Ascii.eqb c sep) eqn:E.
    + injection H as <- _. reflexivity.
    + destruct (Split s sep) as [|f fs] eqn:Es.
      * injection H as <- _. cbn. rewrite E. reflexivity.
      * injection H as <- _. cbn. rewrite E. exact (IH f fs eq_refl).
Qed.

(** X4.  Splitting loses nothing: the lines handed to the resolver, joined
    by newlines again, are the output of the version script without its
    surrounding white space. *)
Theorem versionsList_joins_back (stdout : string) :
  unlines (versionsListOf stdout) = TrimSpace stdout.
Proof. apply (concat_Split (TrimSpace stdout) "010"%char). Qed.

(** ** The manifest *)

Lemma firstSegment_spec (path : string) :
  has_byte "/"%char (firstSegment path) = false
  /\ (path = firstSegment path
      \/ exists tail, path = firstSegment path +:+ "/" +:+ tail).
Proof.
  unfold firstSegment. pose proof (concat_Split path "/"%char) as Hjoin.
  pose proof (Split_nonempty path "/"%char) as Hnil.
  destruct (Split path "/"%char) as [|first rest] eqn:E; [contradiction|].
  split; [exact (Split_head_no_sep _ _ _ _ E)|].
  destruct rest as [|second rest].
  - left. symmetry. exact Hjoin.
  - right. exists (String.concat "/" (second :: rest)). symmetry. exact Hjoin.
Qed.

(** X5.  After a [Blobs.Unmarshal] that returns no error, the map has the
    keys the decoder gave, none of its records is nil, and each record
    keeps the decoded id, size and digest, has the key without surrounding
    white space as [Path], and as [PackageName] the part of the path before
    its first slash: a name without a slash that the path starts with. *)
Theorem Blobs_Unmarshal_fills_records Decode data s k entry :
  Blobs_Unmarshal Decode data = Ret (s, None) ->
  s !! k = Some entry ->
  exists v b,
    fst (Decode data) !! k = Some (Some v)
    /\ entry = Some b
    /\ ID b = ID v /\ Size b = Size v /\ Sha b = Sha v
    /\ Path b = TrimSpace k
    /\ has_byte "/"%char (PackageName b) = false
    /\ (Path b = PackageName b
        \/ exists tail, Path b = PackageName b +:+ "/" +:+ tail).
Proof.
  unfold Blobs_Unmarshal. destruct (Decode data) as [decoded [err|]]; [discriminate|].
  destruct (decide (map_Forall _ decoded)) as [Hall|_]; [|discriminate].
  intros [= <-]. rewrite map_lookup_imap.
  destruct (decoded !! k) as [o|] eqn:Hk; [|discriminate].
  destruct (Hall k o Hk) as [v ->]. cbn. intros [= <-].
  exists v, (fillBlob k v). cbn [fst]. rewrite Hk.
  destruct (firstSegment_spec (TrimSpace k)) as [Hno Hpre].
  repeat split; try reflexivity; assumption.
Qed.

(** X6.  A key with a null value makes [Blobs.Unmarshal] panic with a nil
    dereference when the decoder itself reported no error. *)
Theorem Blobs_Unmarshal_nil_record Decode data decoded k :
  Decode data = (decoded, None) ->
  decoded !! k = Some None ->
  Blobs_Unmarshal Decode data = Stop (Panicked NilDereference).
Proof.
  intros HD Hk. unfold Blobs_Unmarshal. rewrite HD.
  destruct (decide (map_Forall _ decoded)) as [Hall|_]; [|reflexivity].
  destruct (Hall k None Hk) as [v Hv]. discriminate.
Qed.

Lemma Blobs_Unmarshal_fills_records_witness :
  exists v b,
    fst (Situations.Decode []) !! " curl/curl-7.0.tar.gz" = Some (Some v)
    /\ Some (fillBlob " curl/curl-7.0.tar.gz" Scenario.old) = Some b
    /\ ID b = ID v /\ Size b = Size v /\ Sha b = Sha v
    /\ Path b = TrimSpace " curl/curl-7.0.tar.gz"
    /\ has_byte "/"%char (PackageName b) = false
    /\ (Path b = PackageName b
        \/ exists tail, Path b = PackageName b +:+ "/" +:+ tail).
Proof.
  refine (Blobs_Unmarshal_fills_records Situations.Decode []
            (map_imap (fun k v => Some (option_map (fillBlob k) v))
               (fst (Situations.Decode [])))
            " curl/curl-7.0.tar.gz" _ _ _).
  - vm_compute. reflexivity.
  - vm_compute. reflexivity.
Defined.

Lemma Blobs_Unmarshal_nil_record_witness :
  Blobs_Unmarshal Situations.DecodeNull [] = Stop (Panicked NilDereference).
Proof.
  refine (Blobs_Unmarshal_nil_record Situations.DecodeNull []
            (fst (Situations.DecodeNull [])) "jq/jq-1.6.tar.gz" eq_refl _).
  apply lookup_insert_eq.
Defined.

(** ** More on the content fetcher *)

(** X7.  What [DownloadFile] returns does not depend on what the disk held
    before: the file is created anew and the digest is taken from what was
    just written, so fetching a URL again gives the same result. *)
Theorem DownloadFile_result_ignores_old_files env filepath url w w' :
  fst (DownloadFile env filepath url w) = fst (DownloadFile env filepath url w').
Proof.
  unfold DownloadFile, io_Copy, sha256sum. run_M.
  destruct (http_Get env url) as [err|resp]; [reflexivity|].
  destruct (os_Create env filepath); [reflexivity|]. run_M.
  destruct (disk_room env filepath) as [[room werr]|];
    [destruct (room <? List.length (Body resp))%nat|]; run_M;
    (destruct (os_Chmod env filepath); [reflexivity|]);
    (destruct (read_fault env filepath); [reflexivity|]); run_M;
    rewrite !lookup_insert_eq; reflexivity.
Qed.

(** X8.  When the request fails, or the request succeeds and the file
    cannot be created, [DownloadFile] returns that error with an empty
    [Blob] and leaves every file as it was. *)
Theorem DownloadFile_failure_keeps_files env filepath url err w :
  http_Get env url = inl err
  \/ (exists resp, http_Get env url = inr resp /\ os_Create env filepath = Some err) ->
  DownloadFile env filepath url w
  = (Ret (zeroBlob, Some err),
     {| fs := fs w; trace := trace w ++ [EvHttpGet url] |}).
Proof.
  intros [H|(resp & H & Hc)]; unfold DownloadFile; run_M; rewrite H;
    [reflexivity|]. rewrite Hc. reflexivity.
Qed.

Lemma DownloadFile_failure_keeps_files_witness :
  DownloadFile Situations.offline "curl-7.1.tar.gz" Scenario.url Scenario.start
  = (Ret (zeroBlob,
          Some (ErrOther
                  "Get https://curl.example/curl-7.1.tar.gz: dial tcp: no route to host")),
     {| fs := ∅; trace := [EvHttpGet Scenario.url] |}).
Proof.
  apply (DownloadFile_failure_keeps_files Situations.offline "curl-7.1.tar.gz"
           Scenario.url
           (ErrOther "Get https://curl.example/curl-7.1.tar.gz: dial tcp: no route to host")
           Scenario.start).
  left. reflexivity.
Defined.

(** X9.  When [os.Chmod] fails the caller gets the wrapped error and an
    empty [Blob], although the file has by then been replaced by what was
    downloaded. *)
Theorem DownloadFile_chmod_failure env filepath url resp err w :
  http_Get env url = inr resp ->
  os_Create env filepath = None ->
  os_Chmod env filepath = Some err ->
  fst (DownloadFile env filepath url w)
    = Ret (zeroBlob, Some (Errorf "changing permissions" err))
  /\ fs (snd (DownloadFile env filepath url w)) !! filepath
     = Some (delivered env filepath resp).
Proof.
  intros Hget Hcreate Hchmod. unfold DownloadFile, io_Copy, delivered. run_M.
  rewrite Hget, Hcreate. run_M.
  destruct (disk_room env filepath) as [[room werr]|];
    [destruct (room <? List.length (Body resp))%nat eqn:E|]; run_M;
    rewrite Hchmod; run_M; rewrite lookup_insert_eq; split; try reflexivity.
  rewrite (firstn_ge_length _ _ E). reflexivity.
Qed.

Lemma DownloadFile_chmod_failure_witness :
  fst (DownloadFile Situations.readonly "curl-7.1.tar.gz" Scenario.url
         Scenario.start)
    = Ret (zeroBlob,
           Some (ErrOther
                   "changing permissions: chmod curl-7.1.tar.gz: operation not permitted"))
  /\ fs (snd (DownloadFile Situations.readonly "curl-7.1.tar.gz" Scenario.url
                Scenario.start)) !! "curl-7.1.tar.gz"
     = Some (list_byte_of_string "abcd").
Proof.
  exact (DownloadFile_chmod_failure Situations.readonly "curl-7.1.tar.gz"
           Scenario.url Scenario.tarball
           (ErrOther "chmod curl-7.1.tar.gz: operation not permitted")
           Scenario.start eq_refl eq_refl eq_refl).
Defined.

(** X10.  [sha256sum] never returns an error: it returns the digest of the
    file next to a nil error, or ends the process with status 1; either way
    it changes nothing.  The check of its error in [DownloadFile] can never
    fire. *)
Theorem sha256sum_returns_no_error env filepath w :
  (exists data, fs w !! filepath = Some data
     /\ sha256sum env filepath w = (Ret (SHA256.hex data, None), w))
  \/ sha256sum env filepath w = (Stop (Exited 1), w).
Proof.
  unfold sha256sum. destruct (read_fault env filepath); [right; reflexivity|].
  run_M. destruct (fs w !! filepath) as [data|] eqn:E.
  - left. exists data. split; reflexivity.
  - right. reflexivity.
Qed.

(** ** More on the loop over the manifest *)

Lemma forM_app {A} (l1 l2 : list A) (body : A -> M unit) (w : World) :
  forM (l1 ++ l2) body w
  = match forM l1 body w with
    | (Ret _, w1) => forM l2 body w1
    | (Stop h, w1) => (Stop h, w1)
    end.
Proof.
  revert w. induction l1 as [|a l1 IH]; intros w; [reflexivity|].
  cbn [forM app]. unfold bind. destruct (body a w) as [[[]|h] w1]; [apply IH|reflexivity].
Qed.

(** X11.  A description whose one file has no URL passes the guards of the
    locator.  The loop over the manifest then ends in an index out of range
    as soon as it meets a record of the package, before anything is
    fetched; with no such record it returns and nothing has happened. *)
Theorem no_url_fails_at_first_record
    env releaseDir onRemove onAdd pkg blobFilePath name blobs w :
  checkShape {| metalink.Files := [ {| metalink.Name := name; metalink.URLs := [] |} ] |}
    = Ret {| metalink.Name := name; metalink.URLs := [] |}
  /\ forM blobs
       (blobStep env releaseDir onRemove onAdd pkg blobFilePath
          {| metalink.Name := name; metalink.URLs := [] |}) w
     = (if List.existsb (fun b => (PackageName b =? pkg)%string) blobs
        then Stop (Panicked (IndexOutOfRange 0 0))
        else Ret tt, w).
Proof.
  split; [reflexivity|].
  induction blobs as [|b blobs IH]; [reflexivity|].
  cbn [forM List.existsb]. unfold bind, blobStep at 1.
  destruct (PackageName b =? pkg)%string; cbn [negb orb metalink.URLs].
  - reflexivity.
  - run_M. exact IH.
Qed.

(** X12.  There is no isolation between resources: when the round of one
    resource ends in a panic or an exit, [main] ends the same way at once;
    the resources after it are not looked at and the closing steps (git
    status, upload) are not run. *)
Theorem main_stops_at_first_failure {L : VersionLib}
    env releaseDir plan1 rb plan2 w w1 h w2 :
  forM plan1 (fun rb => updateResource env releaseDir (fst rb) (snd rb)) w = (Ret tt, w1) ->
  updateResource env releaseDir (fst rb) (snd rb) w1 = (Stop h, w2) ->
  main env releaseDir (plan1 ++ rb :: plan2) w = (Stop h, w2).
Proof.
  intros H1 H2. unfold main. unfold bind at 1. rewrite forM_app, H1.
  cbn [forM]. unfold bind at 1. rewrite H2. reflexivity.
Qed.

Lemma main_stops_at_first_failure_witness :
  main (L := NumericVersions.lib) Situations.undecoded "rel"
    ([] ++ (Scenario.curl, [Scenario.old]) :: [(Scenario.curl, [Scenario.old])])
    Scenario.start
  = (Stop (Panicked (IndexOutOfRange 0 0)),
     {| fs := ∅;
        trace := [ EvExecuteScript "check" []; EvExecuteScript "get" [("version", "7.1")] ] |}).
Proof.
  apply (main_stops_at_first_failure (L := NumericVersions.lib) Situations.undecoded "rel"
           [] (Scenario.curl, [Scenario.old]) [(Scenario.curl, [Scenario.old])]
           Scenario.start Scenario.start).
  - reflexivity.
  - vm_compute. reflexivity.
Defined.

(** X13.  While the fetch works, a loop that completes has downloaded the
    file once for every manifest record of the package, not once for the
    resource. *)
Theorem one_fetch_per_record
    env releaseDir onRemove onAdd pkg blobFilePath file u us resp blobs w w' :
  metalink.URLs file = u :: us ->
  http_Get env (metalink.URL_ u) = inr resp ->
  os_Create env blobFilePath = None ->
  os_Chmod env blobFilePath = None ->
  read_fault env blobFilePath = None ->
  forM blobs (blobStep env releaseDir onRemove onAdd pkg blobFilePath file) w
    = (Ret tt, w') ->
  fetch_count
    (events_of (forM blobs (blobStep env releaseDir onRemove onAdd pkg blobFilePath file)) w)
  = List.length (List.filter (fun b => (PackageName b =? pkg)%string) blobs).
Proof.
  intros Hurls Hget Hcreate Hchmod Hread Hloop.
  rewrite (events_of_app _ w
             (List.flat_map (callsFor env releaseDir pkg blobFilePath file u resp) blobs)).
  - clear Hloop. induction blobs as [|b blobs IH]; [reflexivity|].
    cbn [List.flat_map List.filter]. unfold fetch_count in *.
    rewrite List.filter_app, List.length_app, IH. unfold callsFor at 1.
    destruct (PackageName b =? pkg)%string; [|reflexivity].
    destruct (Sha b =? _)%string; reflexivity.
  - rewrite Hloop. cbn [snd].
    exact (blobsLoop_trace env releaseDir onRemove onAdd pkg blobFilePath file u us resp
             Hurls Hget Hcreate Hchmod Hread blobs w w' Hloop).
Qed.

Lemma one_fetch_per_record_witness :
  fetch_count
    (events_of
       (forM [Scenario.other; Scenario.old; Scenario.same]
          (blobStep Scenario.plain "rel" id id "curl" Scenario.blobFilePath Scenario.file))
       Scenario.start)
  = 2.
Proof.
  pose (r := forM [Scenario.other; Scenario.old; Scenario.same]
               (blobStep Scenario.plain "rel" id id "curl"
                  Scenario.blobFilePath Scenario.file)
               Scenario.start).
  assert (F : fst r = Ret tt) by (vm_compute; reflexivity).
  assert (E : r = (Ret tt, snd r)).
  { rewrite (surjective_pairing r) at 1. rewrite F. reflexivity. }
  exact (one_fetch_per_record Scenario.plain "rel" id id "curl"
           Scenario.blobFilePath Scenario.file
           {| metalink.URL_ := Scenario.url |} [] Scenario.tarball
           [Scenario.other; Scenario.old; Scenario.same] Scenario.start (snd r)
           eq_refl eq_refl eq_refl eq_refl eq_refl E).
Defined.

(** ** More on the version file *)

Section VersionedRound.
Context {L : VersionLib}.
Variable env : Env.
Variable releaseDir : string.
Variable r : Resource.

Local Abbreviation check := (VersionCheck (source (resourceConfig r))).
Local Abbreviation get := (MetalinkGet (source (resourceConfig r))).
Local Abbreviation versionPath := (filepath_Join env (localBlobDir r) "version").
Local Abbreviation round := (updateResourceVersioned env releaseDir r).
Local Abbreviation afterScripts := (afterScripts r).

Lemma readVersion_run path w :
  read_fault env path = None ->
  readVersion env path w
  = (Ret (string_of_list_byte (default [] (fs w !! path))), w).
Proof.
  intros H. unfold readVersion, ReadFile, panicUnlessNotExist. rewrite H. run_M.
  destruct (fs w !! path); reflexivity.
Qed.

Lemma writeVersion_run path original w :
  write_fault env path = None ->
  writeVersion env path original w
  = (Ret tt, {| fs := <[path := list_byte_of_string original]> (fs w);
                trace := trace w |}).
Proof.
  intros H. unfold writeVersion, WriteFile, panicUnlessNotExist. rewrite H.
  reflexivity.
Qed.

(** A round whose scripts, resolver and locator do well goes on with the
    version file. *)
Lemma round_steps blobs w stdout latestVersion original file :
  ExecuteScript env check [] = (stdout, None) ->
  resolveLatest (string_of_list_byte stdout) = Ret (latestVersion, original) ->
  checkShape (fst (Unmarshal env (fst (ExecuteScript env get [("version", original)]))))
    = Ret file ->
  round blobs w
  = (currentVersion <- readVersion env versionPath ;;
     if (currentVersion =? original)%string then ret tt
     else
       forM blobs
         (blobStep env releaseDir (Errorf "removing old blobs") (Errorf "adding new blobs")
            (packageName r) (filepath_Join env (localBlobDir r) (metalink.Name file)) file) ;;
       writeVersion env versionPath original)
      (afterScripts original w).
Proof.
  intros Hcheck Hlatest Hshape.
  unfold updateResourceVersioned, versionCheck. unfold bind at 1 2.
  unfold emit at 1. rewrite Hcheck. unfold panicOn. run_M. rewrite Hlatest.
  rewrite locate_result. cbn [fst snd fs trace]. rewrite Hshape.
  rewrite <- app_assoc. reflexivity.
Qed.

(** A round that returns has had its scripts, resolver and locator do
    well. *)
Lemma round_ret_inv blobs w w' :
  round blobs w = (Ret tt, w') ->
  exists stdout latestVersion original file,
    ExecuteScript env check [] = (stdout, None)
    /\ resolveLatest (string_of_list_byte stdout) = Ret (latestVersion, original)
    /\ checkShape (fst (Unmarshal env (fst (ExecuteScript env get [("version", original)]))))
       = Ret file.
Proof.
  unfold updateResourceVersioned, versionCheck. unfold bind at 1 2.
  unfold emit at 1.
  destruct (ExecuteScript env check []) as [stdout [err|]] eqn:Hcheck;
    unfold panicOn; run_M; [discriminate|].
  destruct (resolveLatest (string_of_list_byte stdout))
    as [[latestVersion original]|h] eqn:Hlatest; [|discriminate].
  rewrite locate_result. cbn [fst snd fs trace].
  destruct (checkShape _) as [file|h] eqn:Hshape; [|discriminate].
  intros _. exists stdout, latestVersion, original, file.
  split; [reflexivity|]. split; [exact Hlatest|exact Hshape].
Qed.

Lemma resolveLatest_parsable stdout latestVersion original :
  resolveLatest stdout = Ret (latestVersion, original) -> parsable original.
Proof.
  intros H.
  assert (E : resolveOriginal (versionsListOf stdout) = Ret original).
  { unfold resolveLatest in H. unfold resolveOriginal.
    destruct (latestVersionOf (versionsListOf stdout)) as [v|h]; [|discriminate].
    cbn in H |- *. destruct (Original_ptr v); [|discriminate]. cbn in H.
    injection H as _ <-. reflexivity. }
  destruct (versionsListOf stdout) as [|first rest]; [discriminate|].
  apply (resolveOriginal_ret_inv _ _ _ E).
Qed.

Lemma parsable_nonempty s : parsable s -> s <> "".
Proof. intros [v Hv] ->. rewrite NewVersion_empty in Hv. discriminate. Qed.

Hypothesis version_readable : read_fault env versionPath = None.
Hypothesis version_writable : write_fault env versionPath = None.

(** After a round that returns, the version file holds the string of the
    resolved version. *)
Lemma round_records_version blobs w w' :
  round blobs w = (Ret tt, w') ->
  exists stdout latestVersion original,
    ExecuteScript env check [] = (stdout, None)
    /\ resolveLatest (string_of_list_byte stdout) = Ret (latestVersion, original)
    /\ (exists file,
          checkShape
            (fst (Unmarshal env (fst (ExecuteScript env get [("version", original)]))))
          = Ret file)
    /\ fs w' !! versionPath = Some (list_byte_of_string original).
Proof.
  intros Hround.
  destruct (round_ret_inv blobs w w' Hround)
    as (stdout & latestVersion & original & file & Hcheck & Hlatest & Hshape).
  exists stdout, latestVersion, original.
  split; [exact Hcheck|]. split; [exact Hlatest|]. split; [exists file; exact Hshape|].
  rewrite (round_steps blobs w _ _ _ _ Hcheck Hlatest Hshape) in Hround.
  unfold bind at 1 in Hround. rewrite (readVersion_run _ _ version_readable) in Hround.
  cbn [afterScripts fs] in Hround.
  destruct (String.eqb_spec (string_of_list_byte (default [] (fs w !! versionPath))) original)
    as [Heq|Hne].
  - injection Hround as <-. cbn [afterScripts fs].
    destruct (fs w !! versionPath) as [data|]; cbn [default] in Heq.
    + rewrite <- Heq, list_byte_of_string_of_list_byte. reflexivity.
    + exfalso. apply (parsable_nonempty original); [|symmetry; exact Heq].
      exact (resolveLatest_parsable _ _ _ Hlatest).
  - unfold bind at 1 in Hround.
    destruct (forM blobs _ _) as [[[]|h] w2]; [|discriminate].
    rewrite (writeVersion_run _ _ _ version_writable) in Hround.
    injection Hround as <-. cbn [fs]. apply lookup_insert_eq.
Qed.

(** A round that finds the resolved version in the version file. *)
Lemma round_short blobs w stdout latestVersion original file :
  ExecuteScript env check [] = (stdout, None) ->
  resolveLatest (string_of_list_byte stdout) = Ret (latestVersion, original) ->
  checkShape (fst (Unmarshal env (fst (ExecuteScript env get [("version", original)]))))
    = Ret file ->
  fs w !! versionPath = Some (list_byte_of_string original) ->
  round blobs w = (Ret tt, afterScripts original w).
Proof.
  intros Hcheck Hlatest Hshape Hfile.
  rewrite (round_steps blobs w _ _ _ _ Hcheck Hlatest Hshape).
  unfold bind at 1. rewrite (readVersion_run _ _ version_readable).
  cbn [afterScripts fs]. rewrite Hfile. cbn [default from_option id].
  rewrite string_of_list_byte_of_string, String.eqb_refl. reflexivity.
Qed.

End VersionedRound.

(** X14.  After a round that returns, and unless reading or writing the
    version file fails, the version file holds the string of the version
    that the round resolved, whether blobs were replaced or not. *)
Theorem completed_round_records_version {L : VersionLib}
    env releaseDir r blobs w w' :
  read_fault env (filepath_Join env (localBlobDir r) "version") = None ->
  write_fault env (filepath_Join env (localBlobDir r) "version") = None ->
  updateResourceVersioned env releaseDir r blobs w = (Ret tt, w') ->
  exists stdout latestVersion original,
    ExecuteScript env (VersionCheck (source (resourceConfig r))) [] = (stdout, None)
    /\ resolveLatest (string_of_list_byte stdout) = Ret (latestVersion, original)
    /\ fs w' !! filepath_Join env (localBlobDir r) "version"
       = Some (list_byte_of_string original).
Proof.
  intros Hr Hw Hround.
  destruct (round_records_version env releaseDir r Hr Hw blobs w w' Hround)
    as (stdout & latestVersion & original & Hcheck & Hlatest & _ & Hfile).
  exists stdout, latestVersion, original. repeat split; assumption.
Qed.

Lemma completed_round_records_version_witness :
  exists stdout latestVersion original,
    ExecuteScript Scenario.plain "check" [] = (stdout, None)
    /\ resolveLatest (L := NumericVersions.lib) (string_of_list_byte stdout)
       = Ret (latestVersion, original)
    /\ fs (snd (updateResourceVersioned (L := NumericVersions.lib) Scenario.plain "rel"
                  Scenario.curl [Scenario.old] Scenario.start))
         !! Scenario.versionPath
       = Some (list_byte_of_string original).
Proof.
  pose (x := updateResourceVersioned (L := NumericVersions.lib) Scenario.plain "rel"
               Scenario.curl [Scenario.old] Scenario.start).
  assert (F : fst x = Ret tt) by (vm_compute; reflexivity).
  assert (E : x = (Ret tt, snd x)).
  { rewrite (surjective_pairing x) at 1. rewrite F. reflexivity. }
  exact (completed_round_records_version (L := NumericVersions.lib) Scenario.plain "rel"
           Scenario.curl [Scenario.old] Scenario.start (snd x) eq_refl eq_refl E).
Defined.

(** X15.  Running the round of a resource again right after one that
    returned, with the scripts printing what they printed, only runs the two
    scripts: nothing is fetched, no bosh command is issued, no file changes,
    whatever the manifest now holds. *)
Theorem second_round_only_runs_scripts {L : VersionLib}
    env releaseDir r blobs blobs' w w' :
  read_fault env (filepath_Join env (localBlobDir r) "version") = None ->
  write_fault env (filepath_Join env (localBlobDir r) "version") = None ->
  updateResourceVersioned env releaseDir r blobs w = (Ret tt, w') ->
  exists original,
    updateResourceVersioned env releaseDir r blobs' w'
      = (Ret tt, afterScripts r original w')
    /\ fetch_count (events_of (updateResourceVersioned env releaseDir r blobs') w') = 0.
Proof.
  intros Hr Hw Hround.
  destruct (round_records_version env releaseDir r Hr Hw blobs w w' Hround)
    as (stdout & latestVersion & original & Hcheck & Hlatest & (file & Hshape) & Hfile).
  exists original.
  pose proof (round_short env releaseDir r Hr blobs' w' _ _ _ _
                Hcheck Hlatest Hshape Hfile) as E.
  split; [exact E|].
  rewrite (events_of_app _ w' _ (f_equal (fun p => trace (snd p)) E)).
  reflexivity.
Qed.

Lemma second_round_only_runs_scripts_witness :
  exists original,
    updateResourceVersioned (L := NumericVersions.lib) Scenario.plain "rel" Scenario.curl
      [Scenario.other; Scenario.old]
      (snd (updateResourceVersioned (L := NumericVersions.lib) Scenario.plain "rel"
              Scenario.curl [Scenario.old] Scenario.start))
    = (Ret tt,
       afterScripts Scenario.curl original
         (snd (updateResourceVersioned (L := NumericVersions.lib) Scenario.plain "rel"
                 Scenario.curl [Scenario.old] Scenario.start)))
    /\ fetch_count
         (events_of
            (updateResourceVersioned (L := NumericVersions.lib) Scenario.plain "rel"
               Scenario.curl [Scenario.other; Scenario.old])
            (snd (updateResourceVersioned (L := NumericVersions.lib) Scenario.plain "rel"
                    Scenario.curl [Scenario.old] Scenario.start))) = 0.
Proof.
  pose (x := updateResourceVersioned (L := NumericVersions.lib) Scenario.plain "rel"
               Scenario.curl [Scenario.old] Scenario.start).
  assert (F : fst x = Ret tt) by (vm_compute; reflexivity).
  assert (E : x = (Ret tt, snd x)).
  { rewrite (surjective_pairing x) at 1. rewrite F. reflexivity. }
  exact (second_round_only_runs_scripts (L := NumericVersions.lib) Scenario.plain "rel"
           Scenario.curl [Scenario.old] [Scenario.other; Scenario.old]
           Scenario.start (snd x) eq_refl eq_refl E).
Defined.

Lemma forM_no_record env releaseDir onRemove onAdd pkg blobFilePath file blobs w :
  Forall (fun b => PackageName b <> pkg) blobs ->
  forM blobs (blobStep env releaseDir onRemove onAdd pkg blobFilePath file) w = (Ret tt, w).
Proof.
  intros H. induction H as [|b blobs Hb _ IH]; [reflexivity|].
  cbn [forM]. unfold bind.
  rewrite (blobStep_other env releaseDir onRemove onAdd pkg blobFilePath file b w Hb).
  exact IH.
Qed.

(** X16.  A resource none of whose blobs is in the manifest is never
    fetched and gets no blob added; its first round all the same writes the
    resolved version to the version file, so that later rounds stop at the
    version file. *)
Theorem unlisted_package_is_marked_done {L : VersionLib}
    env releaseDir r blobs w stdout latestVersion original file :
  ExecuteScript env (VersionCheck (source (resourceConfig r))) [] = (stdout, None) ->
  resolveLatest (string_of_list_byte stdout) = Ret (latestVersion, original) ->
  checkShape
    (fst (Unmarshal env
            (fst (ExecuteScript env (MetalinkGet (source (resourceConfig r)))
                    [("version", original)])))) = Ret file ->
  read_fault env (filepath_Join env (localBlobDir r) "version") = None ->
  write_fault env (filepath_Join env (localBlobDir r) "version") = None ->
  fs w !! filepath_Join env (localBlobDir r) "version" = None ->
  Forall (fun b => PackageName b <> packageName r) blobs ->
  updateResourceVersioned env releaseDir r blobs w
  = (Ret tt,
     {| fs := <[filepath_Join env (localBlobDir r) "version"
                 := list_byte_of_string original]> (fs w);
        trace := trace (afterScripts r original w) |}).
Proof.
  intros Hcheck Hlatest Hshape Hr Hw Hfile Hblobs.
  rewrite (round_steps env releaseDir r blobs w _ _ _ _ Hcheck Hlatest Hshape).
  unfold bind at 1. rewrite (readVersion_run env _ _ Hr).
  cbn [afterScripts fs]. rewrite Hfile. cbn [default from_option].
  destruct (String.eqb_spec (string_of_list_byte []) original) as [Heq|_].
  - exfalso. apply (parsable_nonempty original); [|symmetry; exact Heq].
    exact (resolveLatest_parsable _ _ _ Hlatest).
  - unfold bind at 1. rewrite (forM_no_record _ _ _ _ _ _ _ _ _ Hblobs).
    rewrite (writeVersion_run env _ _ _ Hw). reflexivity.
Qed.

Lemma unlisted_package_is_marked_done_witness :
  updateResourceVersioned (L := NumericVersions.lib) Scenario.plain "rel" Scenario.curl
    [Scenario.other] Scenario.start
  = (Ret tt,
     {| fs := <[Scenario.versionPath := list_byte_of_string "7.1"]> ∅;
        trace := [ EvExecuteScript "check" []; EvExecuteScript "get" [("version", "7.1")] ] |}).
Proof.
  refine (unlisted_package_is_marked_done (L := NumericVersions.lib) Scenario.plain "rel"
            Scenario.curl [Scenario.other] Scenario.start
            (list_byte_of_string (unlines ["7.0"; "7.1"; ""]))
            (NewVersion (VersionLib := NumericVersions.lib) "7.1") "7.1" Scenario.file
            eq_refl eq_refl eq_refl eq_refl eq_refl _ _).
  - apply lookup_empty.
  - constructor; [discriminate|constructor].
Defined.

(** ** More on the closing steps *)

(** X17.  Once [git add] and [git status] have worked, [main] runs
    [upload-blobs] exactly when the staged status of the manifest is
    [Modified]: one bosh call in that case, none in any other. *)
Theorem upload_iff_manifest_modified env releaseDir w status :
  git_Add env (filepath_Join env "config" "blobs.yml") = None ->
  git_Status env = inr status ->
  events_of (finish env releaseDir) w
  = if StatusCode_eqb
         (Staging (Status_File status (filepath_Join env "config" "blobs.yml"))) Modified
    then [EvBosh (uploadBlobsArgs releaseDir)]
    else [].
Proof.
  intros Hadd Hstatus. apply events_of_app.
  unfold finish, panicOn, boshUploadBlobs, bosh. rewrite Hadd, Hstatus. run_M.
  destruct (StatusCode_eqb _ Modified); cbn [negb]; run_M;
    [|rewrite app_nil_r; reflexivity].
  destruct (bosh_New env _); run_M; [reflexivity|].
  destruct (bosh_Execute env _); reflexivity.
Qed.

Lemma upload_iff_manifest_modified_witness :
  events_of (finish Situations.staged "rel") Scenario.start
    = [EvBosh ["upload-blobs"; "--dir=rel"]]
  /\ events_of (finish Scenario.plain "rel") Scenario.start = [].
Proof.
  split.
  - exact (upload_iff_manifest_modified Situations.staged "rel" Scenario.start
             {[ "config/blobs.yml" := {| Staging := Modified; Worktree := Unmodified |} ]}
             eq_refl eq_refl).
  - exact (upload_iff_manifest_modified Scenario.plain "rel" Scenario.start ∅
             eq_refl eq_refl).
Defined.

(** X18.  In the variant with version files, a missing credentials file
    ends the run with a panic before [upload-blobs] is tried, while any
    other failure of [os.Stat] on it is passed over and the upload is run. *)
Theorem credentials_checked_before_upload env releaseDir err w :
  os_Stat env (filepath_Join env (filepath_Join env releaseDir "config") "private.yml")
    = Some err ->
  (IsNotExist err = true ->
     finishVersioned env releaseDir w
     = (Stop (Panicked (PanicError (Errorf "blobstore credentials not set" err))), w))
  /\ (IsNotExist err = false ->
        events_of (finishVersioned env releaseDir) w = [EvBosh (uploadBlobsArgs releaseDir)]).
Proof.
  intros Hstat. unfold finishVersioned. rewrite Hstat. split; intros Hne; rewrite Hne.
  - reflexivity.
  - apply events_of_app. unfold boshUploadBlobs, bosh, panicOn. run_M.
    destruct (bosh_New env _); run_M; [reflexivity|].
    destruct (bosh_Execute env _); reflexivity.
Qed.

Lemma credentials_checked_before_upload_witness :
  finishVersioned Situations.no_credentials "rel" Scenario.start
    = (Stop (Panicked (PanicError (ErrOther
         "blobstore credentials not set: stat rel/config/private.yml: no such file or directory"))),
       Scenario.start)
  /\ events_of (finishVersioned Situations.unreadable_credentials "rel") Scenario.start
     = [EvBosh ["upload-blobs"; "--dir=rel"]].
Proof.
  split.
  - exact (proj1 (credentials_checked_before_upload Situations.no_credentials "rel"
                    (ErrNotExist "stat" "rel/config/private.yml") Scenario.start eq_refl)
            eq_refl).
  - exact (proj2 (credentials_checked_before_upload Situations.unreadable_credentials "rel"
                    (ErrOther "stat rel/config/private.yml: permission denied")
                    Scenario.start eq_refl) eq_refl).
Defined.

(** X19.  The variant with version files does not look at what changed:
    when every round has returned and the credentials file is there,
    [upload-blobs] is run, also when every round stopped at its version
    file. *)
Theorem versioned_run_always_uploads {L : VersionLib} env releaseDir plan w w1 :
  forM plan (fun rb => updateResourceVersioned env releaseDir (fst rb) (snd rb)) w
    = (Ret tt, w1) ->
  os_Stat env (filepath_Join env (filepath_Join env releaseDir "config") "private.yml")
    = None ->
  trace (snd (mainVersioned env releaseDir plan w))
  = trace w1 ++ [EvBosh (uploadBlobsArgs releaseDir)].
Proof.
  intros Hrounds Hstat. unfold mainVersioned. unfold bind at 1. rewrite Hrounds.
  unfold finishVersioned, boshUploadBlobs, bosh, panicOn. rewrite Hstat. run_M.
  destruct (bosh_New env _); run_M; [reflexivity|].
  destruct (bosh_Execute env _); reflexivity.
Qed.

Lemma versioned_run_always_uploads_witness :
  trace (snd (mainVersioned (L := NumericVersions.lib) Scenario.plain "rel"
                [(Scenario.curl, [Scenario.old])]
                {| fs := {[ Scenario.versionPath := list_byte_of_string "7.1" ]};
                   trace := [] |}))
  = [ EvExecuteScript "check" []; EvExecuteScript "get" [("version", "7.1")];
      EvBosh ["upload-blobs"; "--dir=rel"] ].
Proof.
  refine (versioned_run_always_uploads (L := NumericVersions.lib) Scenario.plain "rel"
            [(Scenario.curl, [Scenario.old])]
            {| fs := {[ Scenario.versionPath := list_byte_of_string "7.1" ]}; trace := [] |}
            {| fs := {[ Scenario.versionPath := list_byte_of_string "7.1" ]};
               trace := [ EvExecuteScript "check" [];
                          EvExecuteScript "get" [("version", "7.1")] ] |}
            _ eq_refl).
  cbn [forM fst snd]. unfold bind.
  rewrite (round_short (L := NumericVersions.lib) Scenario.plain "rel" Scenario.curl eq_refl
             [Scenario.old] _ (list_byte_of_string (unlines ["7.0"; "7.1"; ""]))
             (NewVersion (VersionLib := NumericVersions.lib) "7.1") "7.1" Scenario.file
             eq_refl eq_refl eq_refl (lookup_singleton_eq _ _)).
  reflexivity.
Defined.

(** ** What a round of the loop never does *)

Lemma DownloadFile_trace env filepath url w :
  trace (snd (DownloadFile env filepath url w)) = trace w ++ [EvHttpGet url].
Proof.
  unfold DownloadFile, io_Copy, sha256sum. run_M.
  destruct (http_Get env url) as [err|resp]; [reflexivity|].
  destruct (os_Create env filepath); [reflexivity|]. run_M.
  destruct (disk_room env filepath) as [[room werr]|];
    [destruct (room <? List.length (Body resp))%nat|]; run_M;
    (destruct (os_Chmod env filepath); [reflexivity|]);
    (destruct (read_fault env filepath); [reflexivity|]); run_M;
    rewrite !lookup_insert_eq; reflexivity.
Qed.

(** X20.  [DownloadFile] writes to the path it is given and to no other
    file, however it ends. *)
Theorem DownloadFile_touches_only_target env filepath url w other :
  other <> filepath ->
  fs (snd (DownloadFile env filepath url w)) !! other = fs w !! other.
Proof.
  intros Hne. unfold DownloadFile, io_Copy, sha256sum. run_M.
  destruct (http_Get env url) as [err|resp]; [reflexivity|].
  destruct (os_Create env filepath); [reflexivity|]. run_M.
  destruct (disk_room env filepath) as [[room werr]|];
    [destruct (room <? List.length (Body resp))%nat|]; run_M;
    (destruct (os_Chmod env filepath); run_M;
     [rewrite !lookup_insert_ne by congruence; reflexivity|]);
    (destruct (read_fault env filepath); run_M;
     [rewrite !lookup_insert_ne by congruence; reflexivity|]);
    rewrite !lookup_insert_eq; run_M;
    rewrite !lookup_insert_ne by congruence; reflexivity.
Qed.

Lemma DownloadFile_touches_only_target_witness :
  fs (snd (DownloadFile Scenario.plain Scenario.blobFilePath Scenario.url
             {| fs := {[ Scenario.versionPath := list_byte_of_string "7.0" ]};
                trace := [] |})) !! Scenario.versionPath
  = Some (list_byte_of_string "7.0").
Proof.
  rewrite (DownloadFile_touches_only_target Scenario.plain Scenario.blobFilePath
             Scenario.url
             {| fs := {[ Scenario.versionPath := list_byte_of_string "7.0" ]}; trace := [] |}
             Scenario.versionPath).
  - apply lookup_singleton_eq.
  - discriminate.
Defined.

(** X21.  No bosh command is issued for a record unless the record is of
    the package, [DownloadFile] returned a blob next to a nil error, and
    the digest of that blob differs from the recorded one.  (A nil error
    of [DownloadFile] does not say that the transfer was complete.) *)
Theorem bosh_only_after_changed_fetch
    env releaseDir onRemove onAdd pkg blobFilePath file b w args :
  In (EvBosh args)
     (events_of (blobStep env releaseDir onRemove onAdd pkg blobFilePath file b) w) ->
  PackageName b = pkg
  /\ exists u us newBlob,
       metalink.URLs file = u :: us
       /\ fst (DownloadFile env blobFilePath (metalink.URL_ u) w) = Ret (newBlob, None)
       /\ Sha b <> Sha newBlob.
Proof.
  unfold events_of, blobStep.
  destruct (String.eqb_spec (PackageName b) pkg) as [Hp|Hp]; cbn [negb];
    [|unfold ret; cbn [snd]; rewrite drop_all; intros []].
  destruct (metalink.URLs file) as [|u us] eqn:Hurls;
    [unfold panic, halt; cbn [snd]; rewrite drop_all; intros []|].
  unfold bind at 1.
  pose proof (DownloadFile_trace env blobFilePath (metalink.URL_ u) w) as Ht.
  destruct (DownloadFile env blobFilePath (metalink.URL_ u) w)
    as [[[newBlob err]|h] w1] eqn:ED; cbn [fst snd] in Ht |- *.
  - destruct err as [e|]; unfold panicOn at 1.
    + unfold bind at 1, panic, halt. cbn [snd]. rewrite Ht, drop_app_length.
      intros [H|[]]. discriminate.
    + unfold bind at 1, ret at 1.
      destruct (String.eqb_spec (Sha b) (Sha newBlob)) as [Hs|Hs].
      * unfold ret. cbn [snd]. rewrite Ht, drop_app_length.
        intros [H|[]]. discriminate.
      * intros _. split; [exact Hp|]. exists u, us, newBlob.
        rewrite ED. repeat split. exact Hs.
  - rewrite Ht, drop_app_length. intros [H|[]]. discriminate.
Qed.

Lemma bosh_only_after_changed_fetch_witness :
  In (EvBosh ["remove-blob"; "--dir=rel"; "curl/curl-7.0.tar.gz"])
     (events_of (blobStep Scenario.plain "rel" id id "curl"
                   Scenario.blobFilePath Scenario.file Scenario.old) Scenario.start)
  /\ PackageName Scenario.old = "curl"
  /\ exists u us newBlob,
       metalink.URLs Scenario.file = u :: us
       /\ fst (DownloadFile Scenario.plain Scenario.blobFilePath (metalink.URL_ u)
                 Scenario.start) = Ret (newBlob, None)
       /\ Sha Scenario.old <> Sha newBlob.
Proof.
  assert (H : In (EvBosh ["remove-blob"; "--dir=rel"; "curl/curl-7.0.tar.gz"])
                (events_of (blobStep Scenario.plain "rel" id id "curl"
                   Scenario.blobFilePath Scenario.file Scenario.old) Scenario.start)).
  { vm_compute. right. left. reflexivity. }
  split; [exact H|].
  exact (bosh_only_after_changed_fetch Scenario.plain "rel" id id "curl"
           Scenario.blobFilePath Scenario.file Scenario.old Scenario.start _ H).
Defined.
